(** * Digit recognition notebook: a model of [digit_recognition.ipynb]

    The notebook is a script over the TensorFlow/Keras API.  Its four code
    cells are embedded below as programs of a small state-and-error monad
    over the IPython kernel state: the global namespace (a dictionary from
    names to values), the store of [Sequential] objects, the saved models on
    disk, the standard output and the sequence of library calls made so far.

    The deep-learning library itself is not part of the repository.  It is
    taken as an interface ([Framework]) and every statement below is proved
    for every implementation of that interface.

    The cells are given a second time as they are written, as syntax trees
    ([notebook_src]) over a grammar that has the loops, conditionals and
    definitions of the language, with an evaluator for the constructs the
    notebook uses.  The statements about the shape of the program are
    statements about these trees; in every kernel state the evaluator
    computes from them what the cell programs compute.

    What the model leaves out.  A library operation is a function of its
    arguments: the exceptions the library raises on data it cannot use, the
    download that [load_data] makes on first use and the random choices of
    training are not modelled, so no statement below asserts that a cell
    succeeds on arbitrary arrays or compares the weights of two runs.  The
    namespace holds the names the cells assign; the names IPython binds
    itself ([_], [_<n>], [_i<n>]) are left out.  An exception ends the
    computation and carries no kernel state. *)

From stdpp Require Import base strings gmap list.
From Stdlib Require Import ZArith.

Local Open Scope Z_scope.
Local Open Scope string_scope.
Local Open Scope list_scope.

#[local] Set Warnings "-register-all".

(** ** The library interface *)

(** Arguments of the layer constructors of [tf.keras.layers] that the
    notebook calls.  [input_shape] is a keyword argument that is absent in
    some calls. *)
Inductive Layer : Type :=
| Flatten (input_shape : option (Z * Z * Z))
| Dense (units : Z) (activation : string)
| Conv2D (filters : Z) (kernel_size : Z * Z) (activation : string)
         (input_shape : option (Z * Z * Z))
| BatchNormalization
| MaxPooling2D (pool_size : Z * Z).

(** What the notebook needs from TensorFlow.  [Array] stands for
    [numpy.ndarray], [Scalar] for a Python float and [Model] for the whole
    state of a [Sequential] object (layers, optimizer, weights).  Each
    operation is a function: what the library does when it is given data it
    cannot use, and what it draws at random, is outside this interface. *)
Class Framework : Type := {
  Array : Type;
  Scalar : Type;
  Model : Type;
  (* tf.keras.datasets.mnist.load_data() *)
  fw_load_data : (Array * Array) * (Array * Array);
  (* tf.keras.utils.normalize(x, axis=...) *)
  fw_normalize : Array → Z → Array;
  (* tf.keras.models.Sequential() *)
  fw_Sequential : Model;
  (* m.add(layer) *)
  fw_add : Model → Layer → Model;
  (* m.compile(optimizer=..., loss=..., metrics=[...]) *)
  fw_compile : Model → string → string → list string → Model;
  (* m.fit(x, y, epochs=..., batch_size=...) *)
  fw_fit : Model → Array → Array → Z → option Z → Model;
  (* m.evaluate(x, y), with one metric: [loss, metric] *)
  fw_evaluate : Model → Array → Array → Scalar * Scalar
}.

Section Kernel.
Context {fw : Framework}.

(** ** Values, calls and the kernel state *)

(** What a global name can be bound to: a module or function of the
    library (by its path), an array, a reference to a [Sequential] object,
    a number, a string. *)
Inductive value : Type :=
| VModule (name : string)
| VArray (a : Array)
| VRef (id : nat)
| VFloat (s : Scalar)
| VStr (s : string).

(** A call into the library (or to the builtin [print]) with the arguments
    it received. *)
Inductive call : Type :=
| CLoadData
| CNormalize (x : Array) (axis : Z)
| CSequential (id : nat)
| CLayer (l : Layer)
| CAdd (id : nat) (l : Layer)
| CCompile (id : nat) (optimizer loss : string) (metrics : list string)
| CFit (id : nat) (x y : Array) (epochs : Z) (batch_size : option Z)
| CEvaluate (id : nat) (x y : Array)
| CSave (id : nat) (path : string)
| CLoadModel (path : string) (id : nat)
| CPrint (args : list value).

(** An executed call together with the line of the notebook file it is
    written on. *)
Record event : Type := Event { line : nat; what : call }.

Inductive error : Type :=
| NameError (x : string)
| AttributeError (attr : string)
| TypeError (msg : string)
| ValueError (msg : string)
| OSError (path : string)
| NotImplementedError (what : string).

(** The state of the IPython kernel and its surroundings.  [heap] holds
    the [Sequential] objects in the order they were created, a reference
    is an index into it.  [stdout] holds what the notebook's own [print]
    statements write, one entry per statement with the values printed; the
    progress lines the library writes during [fit] and [evaluate] are not
    recorded. *)
Record kernel : Type := Kernel {
  globals : gmap string value;
  heap : list Model;
  disk : gmap string Model;
  stdout : list (list value);
  trace : list event
}.

(** A kernel that has just been started. *)
Definition fresh (d : gmap string Model) : kernel :=
  {| globals := ∅; heap := []; disk := d; stdout := []; trace := [] |}.

(** ** The monad of cell programs *)

Definition NB (A : Type) : Type := kernel → error + A * kernel.

#[global] Instance NB_ret : MRet NB := λ A a k, inr (a, k).
#[global] Instance NB_bind : MBind NB := λ A B f m k,
  match m k with
  | inl e => inl e
  | inr (a, k') => f a k'
  end.

Definition raise {A} (e : error) : NB A := λ _, inl e.

Definition load_name (x : string) : NB value := λ k,
  match globals k !! x with
  | Some v => inr (v, k)
  | None => inl (NameError x)
  end.

Definition store_name (x : string) (v : value) : NB unit := λ k,
  inr ((), {| globals := <[x:=v]> (globals k); heap := heap k;
              disk := disk k; stdout := stdout k; trace := trace k |}).

Definition emit (ln : nat) (c : call) : NB unit := λ k,
  inr ((), {| globals := globals k; heap := heap k; disk := disk k;
              stdout := stdout k; trace := trace k ++ [Event ln c] |}).

Definition alloc (m : Model) : NB nat := λ k,
  inr (length (heap k),
       {| globals := globals k; heap := heap k ++ [m]; disk := disk k;
          stdout := stdout k; trace := trace k |}).

(** [<v>.<name>] for a method of a [Sequential]: the attribute is looked
    up when the callee is evaluated, before the arguments are; of the
    values of this model only a [Sequential] has the methods the notebook
    calls.  The result is the object the method is bound to. *)
Definition method (v : value) (name : string) : NB nat := λ k,
  match v with
  | VRef id =>
      match heap k !! id with
      | Some _ => inr (id, k)
      | None => inl (TypeError "dangling reference")
      end
  | _ => inl (AttributeError name)
  end.

(** The state of an object when a call on it is made. *)
Definition current (id : nat) : NB Model := λ k,
  match heap k !! id with
  | Some m => inr (m, k)
  | None => inl (TypeError "dangling reference")
  end.

Definition update (id : nat) (m : Model) : NB unit := λ k,
  inr ((), {| globals := globals k; heap := <[id:=m]> (heap k);
              disk := disk k; stdout := stdout k; trace := trace k |}).

Definition write_stdout (args : list value) : NB unit := λ k,
  inr ((), {| globals := globals k; heap := heap k; disk := disk k;
              stdout := stdout k ++ [args]; trace := trace k |}).

Definition write_disk (path : string) (m : Model) : NB unit := λ k,
  inr ((), {| globals := globals k; heap := heap k;
              disk := <[path:=m]> (disk k);
              stdout := stdout k; trace := trace k |}).

Definition read_disk (path : string) : NB Model := λ k,
  match disk k !! path with
  | Some m => inr (m, k)
  | None => inl (OSError path)
  end.

Definition as_array (v : value) : NB Array :=
  match v with
  | VArray a => mret a
  | _ => raise (ValueError "not an array")
  end.

(** An attribute path [<v>.attr.b.c] that the module [name] has: looked up
    when the callee is evaluated, before the arguments are.  Of the values
    of this model only the module [name] has the attribute [attr]. *)
Definition is_module (name attr : string) (v : value) : NB unit :=
  match v with
  | VModule n =>
      if decide (n = name) then mret () else raise (AttributeError attr)
  | _ => raise (AttributeError attr)
  end.

(** The name [print]: the global of that name when the kernel has one,
    the builtin otherwise. *)
Definition load_print : NB (option value) := λ k,
  inr (globals k !! "print", k).

(** ** The statements and library calls the notebook uses

    Every call takes the line it is written on and records itself in the
    trace before it returns. *)

(** [import tensorflow as <alias>] *)
Definition import_tensorflow_as (alias : string) : NB unit :=
  store_name alias (VModule "tensorflow").

(** [<tf>.keras.datasets.mnist]: an attribute path, not a call. *)
Definition keras_datasets_mnist (tf : value) : NB value :=
  is_module "tensorflow" "keras" tf;;
  mret (VModule "tensorflow.keras.datasets.mnist").

(** [<mnist>.load_data()] *)
Definition load_data (ln : nat) : NB ((value * value) * (value * value)) :=
  emit ln CLoadData;;
  let r := fw_load_data in
  mret ((VArray r.1.1, VArray r.1.2), (VArray r.2.1, VArray r.2.2)).

(** [<tf>.keras.utils.normalize(x, axis=axis)] *)
Definition keras_utils_normalize (ln : nat) (x : value) (axis : Z)
  : NB value :=
  a ← as_array x;
  emit ln (CNormalize a axis);;
  mret (VArray (fw_normalize a axis)).

(** [<tf>.keras.models.Sequential()]: a new object. *)
Definition keras_models_Sequential (ln : nat) : NB value :=
  id ← alloc fw_Sequential;
  emit ln (CSequential id);;
  mret (VRef id).

(** [<tf>.keras.layers.<L>(...)] for a layer constructor [L]. *)
Definition keras_layers (ln : nat) (l : Layer) : NB Layer :=
  emit ln (CLayer l);;
  mret l.

(** [<self>.add(l)]: the object is changed in place. *)
Definition model_add (ln : nat) (self : nat) (l : Layer) : NB unit :=
  s ← current self;
  emit ln (CAdd self l);;
  update self (fw_add s l).

(** [<self>.compile(optimizer=..., loss=..., metrics=[...])] *)
Definition model_compile (ln : nat) (self : nat)
    (optimizer loss : string) (metrics : list string) : NB unit :=
  s ← current self;
  emit ln (CCompile self optimizer loss metrics);;
  update self (fw_compile s optimizer loss metrics).

(** [<self>.fit(x, y, epochs=..., batch_size=...)]; [batch_size] is [None]
    when the keyword is not given.  The [History] object it returns is not
    bound by the notebook. *)
Definition model_fit (ln : nat) (self : nat) (x y : value)
    (epochs : Z) (batch_size : option Z) : NB unit :=
  s ← current self;
  xa ← as_array x;
  ya ← as_array y;
  emit ln (CFit self xa ya epochs batch_size);;
  update self (fw_fit s xa ya epochs batch_size).

(** [<self>.evaluate(x, y)] *)
Definition model_evaluate (ln : nat) (self : nat) (x y : value)
  : NB (value * value) :=
  s ← current self;
  xa ← as_array x;
  ya ← as_array y;
  emit ln (CEvaluate self xa ya);;
  let r := fw_evaluate s xa ya in
  mret (VFloat r.1, VFloat r.2).

(** [<self>.save(path)] *)
Definition model_save (ln : nat) (self : nat) (path : string) : NB unit :=
  s ← current self;
  emit ln (CSave self path);;
  write_disk path s.

(** [<tf>.keras.models.load_model(path)] *)
Definition keras_models_load_model (ln : nat) (path : string) : NB value :=
  s ← read_disk path;
  id ← alloc s;
  emit ln (CLoadModel path id);;
  mret (VRef id).

(** A call that cannot be made: of a value that is not callable, or with
    arguments the callee does not take. *)
Definition bad_call {A} : NB A := raise (TypeError "call").

(** [<p>(a, b, ...)] where [p] is what the name [print] stands for: the
    builtin writes its arguments; a module, an array, a number or a string
    is not callable.  (A function of the library and a [Sequential] are
    callable, and raise on these arguments inside the library; the
    statement does not print either.) *)
Definition print (ln : nat) (p : option value) (args : list value)
  : NB unit :=
  match p with
  | None => emit ln (CPrint args);; write_stdout args
  | Some _ => bad_call
  end.

(** ** The code cells, line by line

    Each statement is preceded by its source text.  In a call
    [f(a, b)] the callee is evaluated first (a name is loaded, an attribute
    looked up on it), then the arguments from left to right, then the call
    is made. *)

(** Lines 33-41. *)
Definition cell_load : NB unit :=
  (* import tensorflow as tf *)
  import_tensorflow_as "tf";;
  (* mnist = tf.keras.datasets.mnist *)
  (tf ← load_name "tf";
   mnist ← keras_datasets_mnist tf;
   store_name "mnist" mnist);;
  (* (x_train, y_train), (x_test, y_test) = mnist.load_data() *)
  (mnist ← load_name "mnist";
   is_module "tensorflow.keras.datasets.mnist" "load_data" mnist;;
   '((x_train, y_train), (x_test, y_test)) ← load_data 37;
   store_name "x_train" x_train;;
   store_name "y_train" y_train;;
   store_name "x_test" x_test;;
   store_name "y_test" y_test);;
  (* x_train = tf.keras.utils.normalize(x_train, axis=1) *)
  (tf ← load_name "tf";
   is_module "tensorflow" "keras" tf;;
   x_train ← load_name "x_train";
   r ← keras_utils_normalize 40 x_train 1;
   store_name "x_train" r);;
  (* x_test = tf.keras.utils.normalize(x_test, axis=1) *)
  (tf ← load_name "tf";
   is_module "tensorflow" "keras" tf;;
   x_test ← load_name "x_test";
   r ← keras_utils_normalize 41 x_test 1;
   store_name "x_test" r).

(** Lines 90-99. *)
Definition cell_dense : NB unit :=
  (* model = tf.keras.models.Sequential() *)
  (tf ← load_name "tf";
   is_module "tensorflow" "keras" tf;;
   m ← keras_models_Sequential 91;
   store_name "model" m);;
  (* model.add(tf.keras.layers.Flatten(input_shape=(28, 28, 1))) *)
  (m ← load_name "model";
   self ← method m "add";
   tf ← load_name "tf";
   is_module "tensorflow" "keras" tf;;
   l ← keras_layers 92 (Flatten (Some (28, 28, 1)));
   model_add 92 self l);;
  (* model.add(tf.keras.layers.Dense(16, activation="relu")) *)
  (m ← load_name "model";
   self ← method m "add";
   tf ← load_name "tf";
   is_module "tensorflow" "keras" tf;;
   l ← keras_layers 93 (Dense 16 "relu");
   model_add 93 self l);;
  (* model.add(tf.keras.layers.Dense(16, activation="relu")) *)
  (m ← load_name "model";
   self ← method m "add";
   tf ← load_name "tf";
   is_module "tensorflow" "keras" tf;;
   l ← keras_layers 94 (Dense 16 "relu");
   model_add 94 self l);;
  (* model.add(tf.keras.layers.Dense(10, activation="softmax")) *)
  (m ← load_name "model";
   self ← method m "add";
   tf ← load_name "tf";
   is_module "tensorflow" "keras" tf;;
   l ← keras_layers 95 (Dense 10 "softmax");
   model_add 95 self l);;
  (* model.compile(optimizer="adam",
       loss="sparse_categorical_crossentropy", metrics=["accuracy"]) *)
  (m ← load_name "model";
   self ← method m "compile";
   model_compile 98 self "adam" "sparse_categorical_crossentropy" ["accuracy"]);;
  (* model.fit(x_train, y_train, epochs=3) *)
  (m ← load_name "model";
   self ← method m "fit";
   x_train ← load_name "x_train";
   y_train ← load_name "y_train";
   model_fit 99 self x_train y_train 3 None).

(** Lines 173-186. *)
Definition cell_SimpleNet : NB unit :=
  (* SimpleNet_model = tf.keras.models.Sequential() *)
  (tf ← load_name "tf";
   is_module "tensorflow" "keras" tf;;
   m ← keras_models_Sequential 173;
   store_name "SimpleNet_model" m);;
  (* SimpleNet_model.add(tf.keras.layers.Conv2D(32, (3, 3),
       activation='relu', input_shape=(28, 28, 1))) *)
  (m ← load_name "SimpleNet_model";
   self ← method m "add";
   tf ← load_name "tf";
   is_module "tensorflow" "keras" tf;;
   l ← keras_layers 175 (Conv2D 32 (3, 3) "relu" (Some (28, 28, 1)));
   model_add 175 self l);;
  (* SimpleNet_model.add(tf.keras.layers.BatchNormalization()) *)
  (m ← load_name "SimpleNet_model";
   self ← method m "add";
   tf ← load_name "tf";
   is_module "tensorflow" "keras" tf;;
   l ← keras_layers 176 BatchNormalization;
   model_add 176 self l);;
  (* SimpleNet_model.add(tf.keras.layers.MaxPooling2D((2, 2))) *)
  (m ← load_name "SimpleNet_model";
   self ← method m "add";
   tf ← load_name "tf";
   is_module "tensorflow" "keras" tf;;
   l ← keras_layers 177 (MaxPooling2D (2, 2));
   model_add 177 self l);;
  (* SimpleNet_model.add(tf.keras.layers.Conv2D(64, (3, 3), activation='relu')) *)
  (m ← load_name "SimpleNet_model";
   self ← method m "add";
   tf ← load_name "tf";
   is_module "tensorflow" "keras" tf;;
   l ← keras_layers 178 (Conv2D 64 (3, 3) "relu" None);
   model_add 178 self l);;
  (* SimpleNet_model.add(tf.keras.layers.BatchNormalization()) *)
  (m ← load_name "SimpleNet_model";
   self ← method m "add";
   tf ← load_name "tf";
   is_module "tensorflow" "keras" tf;;
   l ← keras_layers 179 BatchNormalization;
   model_add 179 self l);;
  (* SimpleNet_model.add(tf.keras.layers.MaxPooling2D((2, 2))) *)
  (m ← load_name "SimpleNet_model";
   self ← method m "add";
   tf ← load_name "tf";
   is_module "tensorflow" "keras" tf;;
   l ← keras_layers 180 (MaxPooling2D (2, 2));
   model_add 180 self l);;
  (* SimpleNet_model.add(tf.keras.layers.Flatten()) *)
  (m ← load_name "SimpleNet_model";
   self ← method m "add";
   tf ← load_name "tf";
   is_module "tensorflow" "keras" tf;;
   l ← keras_layers 181 (Flatten None);
   model_add 181 self l);;
  (* SimpleNet_model.add(tf.keras.layers.Dense(64, activation='relu')) *)
  (m ← load_name "SimpleNet_model";
   self ← method m "add";
   tf ← load_name "tf";
   is_module "tensorflow" "keras" tf;;
   l ← keras_layers 182 (Dense 64 "relu");
   model_add 182 self l);;
  (* SimpleNet_model.add(tf.keras.layers.Dense(10, activation='softmax')) *)
  (m ← load_name "SimpleNet_model";
   self ← method m "add";
   tf ← load_name "tf";
   is_module "tensorflow" "keras" tf;;
   l ← keras_layers 183 (Dense 10 "softmax");
   model_add 183 self l);;
  (* SimpleNet_model.compile(optimizer="adam",
       loss="sparse_categorical_crossentropy", metrics=["accuracy"]) *)
  (m ← load_name "SimpleNet_model";
   self ← method m "compile";
   model_compile 185 self "adam" "sparse_categorical_crossentropy" ["accuracy"]);;
  (* SimpleNet_model.fit(x_train, y_train, epochs=10, batch_size=64) *)
  (m ← load_name "SimpleNet_model";
   self ← method m "fit";
   x_train ← load_name "x_train";
   y_train ← load_name "y_train";
   model_fit 186 self x_train y_train 10 (Some 64)).

(** Lines 222-228.  Lines 223-225 are comments. *)
Definition cell_compare : NB unit :=
  (* loss, accuracy = model.evaluate(x_test, y_test) *)
  (m ← load_name "model";
   self ← method m "evaluate";
   x_test ← load_name "x_test";
   y_test ← load_name "y_test";
   '(loss, accuracy) ← model_evaluate 222 self x_test y_test;
   store_name "loss" loss;;
   store_name "accuracy" accuracy);;
  (* print("Loss: ", loss) *)
  (p ← load_print;
   loss ← load_name "loss";
   print 227 p [VStr "Loss: "; loss]);;
  (* print("Accuracy: ", accuracy) *)
  (p ← load_print;
   accuracy ← load_name "accuracy";
   print 228 p [VStr "Accuracy: "; accuracy]).

(** The notebook run once from the top. *)
Definition notebook : NB unit :=
  cell_load;; cell_dense;; cell_SimpleNet;; cell_compare.

(** The cells in the order of their recorded execution counts. *)
Definition recorded : NB unit :=
  cell_load;; cell_SimpleNet;; cell_dense;; cell_compare.

(** Restart the kernel and run all cells. *)
Definition run_all (d : gmap string Model) : error + unit * kernel :=
  notebook (fresh d).

(** Line 225 with its comment sign removed and line 222 commented out
    instead: the alternative the author left in the cell.  It is not part
    of [notebook]; it shows what loading a saved model looks like in the
    trace. *)
Definition cell_compare_saved : NB unit :=
  (* loss, accuracy = tf.keras.models.load_model("models/SimpleNet.model")
       .evaluate(x_test, y_test) *)
  (tf ← load_name "tf";
   is_module "tensorflow" "keras" tf;;
   m ← keras_models_load_model 225 "models/SimpleNet.model";
   self ← method m "evaluate";
   x_test ← load_name "x_test";
   y_test ← load_name "y_test";
   '(loss, accuracy) ← model_evaluate 225 self x_test y_test;
   store_name "loss" loss;;
   store_name "accuracy" accuracy);;
  (* print("Loss: ", loss) *)
  (p ← load_print;
   loss ← load_name "loss";
   print 227 p [VStr "Loss: "; loss]);;
  (* print("Accuracy: ", accuracy) *)
  (p ← load_print;
   accuracy ← load_name "accuracy";
   print 228 p [VStr "Accuracy: "; accuracy]).

(** ** Reading a run *)

Definition trace_of {A} (r : error + A * kernel) : list event :=
  match r with
  | inr (_, k) => trace k
  | inl _ => []
  end.

Definition succeeds {A} (r : error + A * kernel) : bool :=
  match r with
  | inr _ => true
  | inl _ => false
  end.

(** The six steps the notebook's prose and comments name, and a seventh
    for saving and loading models.  [compile] stands under the comment
    "Train the model" (line 97), the constructor and [add] calls under
    "Defining our model to train" (line 90). *)
Inductive step : Type :=
| Acquisition | Normalization | ModelDefinition | Training
| Evaluation | Printing | Persistence.

#[global] Instance step_eq_dec : EqDecision step.
Proof. solve_decision. Defined.

Definition step_of (c : call) : step :=
  match c with
  | CLoadData => Acquisition
  | CNormalize _ _ => Normalization
  | CSequential _ | CLayer _ | CAdd _ _ => ModelDefinition
  | CCompile _ _ _ _ | CFit _ _ _ _ _ => Training
  | CEvaluate _ _ _ => Evaluation
  | CSave _ _ | CLoadModel _ _ => Persistence
  | CPrint _ => Printing
  end.

Definition steps (tr : list event) : list step :=
  (λ e, step_of (what e)) <$> tr.

(** Consecutive repetitions of a step count as one occurrence of it. *)
Fixpoint phases (l : list step) : list step :=
  match l with
  | [] => []
  | s :: l' =>
      match l' with
      | s' :: _ => if decide (s = s') then phases l' else s :: phases l'
      | [] => [s]
      end
  end.

Definition calls_in (s : step) (tr : list event) : nat :=
  length (filter (λ s', s' = s) (steps tr)).

(** The calls of one step, in the order they were made. *)
Definition calls_of (s : step) (tr : list event) : list event :=
  filter (λ e, step_of (what e) = s) tr.

(** The name of the function a call went to, as written at the call. *)
Definition callee (c : call) : string :=
  match c with
  | CLoadData => "load_data"
  | CNormalize _ _ => "normalize"
  | CSequential _ => "Sequential"
  | CLayer (Flatten _) => "Flatten"
  | CLayer (Dense _ _) => "Dense"
  | CLayer (Conv2D _ _ _ _) => "Conv2D"
  | CLayer BatchNormalization => "BatchNormalization"
  | CLayer (MaxPooling2D _) => "MaxPooling2D"
  | CAdd _ _ => "add"
  | CCompile _ _ _ _ => "compile"
  | CFit _ _ _ _ _ => "fit"
  | CEvaluate _ _ _ => "evaluate"
  | CSave _ _ => "save"
  | CLoadModel _ _ => "load_model"
  | CPrint _ => "print"
  end.

Definition site (e : event) : nat * string := (line e, callee (what e)).

(** Projections of the trace on one kind of call. *)
Definition normalizations (tr : list event) : list (Array * Z) :=
  omap (λ e, match what e with
             | CNormalize x axis => Some (x, axis)
             | _ => None
             end) tr.

Definition layers_added (id : nat) (tr : list event) : list Layer :=
  omap (λ e, match what e with
             | CAdd id' l => if decide (id' = id) then Some l else None
             | _ => None
             end) tr.

Definition fits (tr : list event)
  : list (nat * (Array * Array) * (Z * option Z)) :=
  omap (λ e, match what e with
             | CFit id x y epochs bs => Some (id, (x, y), (epochs, bs))
             | _ => None
             end) tr.

Definition evaluations (tr : list event) : list (nat * (Array * Array)) :=
  omap (λ e, match what e with
             | CEvaluate id x y => Some (id, (x, y))
             | _ => None
             end) tr.

(** A property of the kernel a computation ends in; an exception has
    none. *)
Definition after {A} (r : error + A * kernel) (P : kernel → Prop) : Prop :=
  match r with
  | inr (_, k) => P k
  | inl _ => False
  end.

(** The object a global name refers to. *)
Definition object_of (x : string) (k : kernel) : option nat :=
  match globals k !! x with
  | Some (VRef id) => Some id
  | _ => None
  end.

(** Is the object [id] ever passed through [fit], through [evaluate]? *)
Definition trained (id : nat) (tr : list event) : bool :=
  bool_decide (id ∈ (λ f, f.1.1) <$> fits tr).

Definition evaluated (id : nat) (tr : list event) : bool :=
  bool_decide (id ∈ (λ f, f.1) <$> evaluations tr).

Definition is_convolutional (ls : list Layer) : bool :=
  existsb (λ l, match l with Conv2D _ _ _ _ => true | _ => false end) ls.

Definition is_fully_connected (ls : list Layer) : bool :=
  forallb (λ l, match l with Flatten _ | Dense _ _ => true | _ => false end) ls.

(** The layers, the training and the evaluation of the model a global name
    refers to. *)
Definition layers_of (k : kernel) (x : string) : list Layer :=
  match object_of x k with
  | Some id => layers_added id (trace k)
  | None => []
  end.

Definition trains (k : kernel) (x : string) : bool :=
  match object_of x k with
  | Some id => trained id (trace k)
  | None => false
  end.

Definition evaluates (k : kernel) (x : string) : bool :=
  match object_of x k with
  | Some id => evaluated id (trace k)
  | None => false
  end.

Definition both_models_evaluated (k : kernel) : Prop :=
  evaluates k "model" = true ∧ evaluates k "SimpleNet_model" = true.

(** *** What a computation leaves alone *)

(** Whenever [m] ends without an exception, the kernel it started in and
    the kernel it ends in are related by [R]. *)
Definition guarantees {A} (R : kernel → kernel → Prop) (m : NB A) : Prop :=
  ∀ k, match m k with
       | inr (_, k') => R k k'
       | inl _ => True
       end.

(** The disk is the same and no [save] or [load_model] call was made. *)
Definition disk_untouched (k k' : kernel) : Prop :=
  disk k' = disk k ∧
  calls_in Persistence (trace k') = calls_in Persistence (trace k).

(** [y_train] and [y_test] are bound as before. *)
Definition labels_kept (k k' : kernel) : Prop :=
  globals k' !! "y_train" = globals k !! "y_train" ∧
  globals k' !! "y_test" = globals k !! "y_test".

(** What [m] does started in [k]: [Q] holds of its result and of the
    kernel it ends in, or [E] of the exception it raises. *)
Definition wp {A} (m : NB A) (Q : A → kernel → Prop) (E : error → Prop)
    (k : kernel) : Prop :=
  match m k with
  | inr (a, k') => Q a k'
  | inl e => E e
  end.

(** The state of the object a global name refers to. *)
Definition model_state (k : kernel) (x : string) : option Model :=
  match object_of x k with
  | Some id => heap k !! id
  | None => None
  end.

(** [x_train] and [x_test] are bound as before. *)
Definition images_kept (k k' : kernel) : Prop :=
  globals k' !! "x_train" = globals k !! "x_train" ∧
  globals k' !! "x_test" = globals k !! "x_test".

(** The namespace after the first cell, over the namespace [g] before
    it. *)
Definition loaded_globals (g : gmap string value) : gmap string value :=
  <["x_test":=VArray (fw_normalize fw_load_data.2.1 1)]>
    (<["x_train":=VArray (fw_normalize fw_load_data.1.1 1)]>
       (<["y_test":=VArray fw_load_data.2.2]>
          (<["y_train":=VArray fw_load_data.1.2]>
             (<["mnist":=VModule "tensorflow.keras.datasets.mnist"]>
                (<["tf":=VModule "tensorflow"]> g))))).

(** What the last cell prints for the metrics [r]. *)
Definition printed (r : Scalar * Scalar) : list (list value) :=
  [[VStr "Loss: "; VFloat r.1]; [VStr "Accuracy: "; VFloat r.2]].

(** What the last cell has done when it ends in [k'] from [k]: [model]
    referred to an object, [x_test] and [y_test] to arrays; that object
    was evaluated on these arrays, once; [loss] and [accuracy] are bound to
    the two numbers returned and these are what was printed. *)
Definition evaluation_of (k k' : kernel) : Prop :=
  ∃ (id : nat) (m : Model) (x y : Array),
    globals k !! "model" = Some (VRef id) ∧
    heap k !! id = Some m ∧
    globals k !! "x_test" = Some (VArray x) ∧
    globals k !! "y_test" = Some (VArray y) ∧
    globals k' !! "loss" = Some (VFloat (fw_evaluate m x y).1) ∧
    globals k' !! "accuracy" = Some (VFloat (fw_evaluate m x y).2) ∧
    stdout k' = stdout k ++ printed (fw_evaluate m x y) ∧
    trace k' = trace k ++
      [Event 222 (CEvaluate id x y);
       Event 227 (CPrint [VStr "Loss: "; VFloat (fw_evaluate m x y).1]);
       Event 228 (CPrint [VStr "Accuracy: "; VFloat (fw_evaluate m x y).2])].

(** What the last cell reads is as it was: the names [model], [x_test],
    [y_test] and [print] are bound as before and every object that existed
    is in the state it was in. *)
Definition evaluation_inputs_kept (k k' : kernel) : Prop :=
  globals k' !! "model" = globals k !! "model" ∧
  globals k' !! "x_test" = globals k !! "x_test" ∧
  globals k' !! "y_test" = globals k !! "y_test" ∧
  globals k' !! "print" = globals k !! "print" ∧
  ∀ id m, heap k !! id = Some m → heap k' !! id = Some m.

(** The kernel a computation ends in (a fresh one if it raises). *)
Definition kernel_of (r : error + unit * kernel) : kernel :=
  match r with
  | inr (_, k) => k
  | inl _ => fresh ∅
  end.

(** *** The order of the steps *)

Definition six_steps : list step :=
  [Acquisition; Normalization; ModelDefinition; Training; Evaluation;
   Printing].

Definition steps_in_listed_order (k : kernel) : Prop :=
  phases (steps (trace k)) = six_steps.

Definition one_call_per_step (k : kernel) : Prop :=
  Forall (λ s, calls_in s (trace k) = 1%nat) six_steps.

(** What a call consumes must have been produced by an earlier call:
    [normalize] takes what [load_data] returned; [add], [compile] and
    [save] take an object that exists; [fit] takes a compiled model, the
    normalized images and the loaded labels; [evaluate] takes a model that
    was trained in this run or loaded from disk, and normalized images;
    [print] takes the metrics [evaluate] returned. *)
Definition happened (p : call → bool) (seen : list event) : bool :=
  existsb (λ e, p (what e)) seen.

Definition ready (seen : list event) (c : call) : bool :=
  let loaded :=
    happened (λ c, match c with CLoadData => true | _ => false end) seen in
  let normalized :=
    happened (λ c, match c with CNormalize _ _ => true | _ => false end) seen in
  let exists_ id :=
    happened (λ c, match c with
                   | CSequential i | CLoadModel _ i => bool_decide (i = id)
                   | _ => false
                   end) seen in
  let compiled_ id :=
    happened (λ c, match c with
                   | CCompile i _ _ _ | CLoadModel _ i => bool_decide (i = id)
                   | _ => false
                   end) seen in
  let fitted id :=
    happened (λ c, match c with
                   | CFit i _ _ _ _ | CLoadModel _ i => bool_decide (i = id)
                   | _ => false
                   end) seen in
  let evaluated_ :=
    happened (λ c, match c with CEvaluate _ _ _ => true | _ => false end) seen in
  match c with
  | CLoadData | CSequential _ | CLayer _ | CLoadModel _ _ => true
  | CNormalize _ _ => loaded
  | CAdd id _ | CCompile id _ _ _ | CSave id _ => exists_ id
  | CFit id _ _ _ _ => compiled_ id && normalized && loaded
  | CEvaluate id _ _ => fitted id && normalized && loaded
  | CPrint _ => evaluated_
  end.

Fixpoint dependencies_met_from (seen todo : list event) : bool :=
  match todo with
  | [] => true
  | e :: todo' =>
      ready seen (what e) && dependencies_met_from (seen ++ [e]) todo'
  end.

Definition dependencies_met (tr : list event) : bool :=
  dependencies_met_from [] tr.

(** The call expressions of the code cells, by line and function name, in
    the order of the file. *)
Definition call_sites : list (nat * string) :=
  [(37, "load_data"); (40, "normalize"); (41, "normalize");
   (91, "Sequential");
   (92, "Flatten"); (92, "add"); (93, "Dense"); (93, "add");
   (94, "Dense"); (94, "add"); (95, "Dense"); (95, "add");
   (98, "compile"); (99, "fit");
   (173, "Sequential");
   (175, "Conv2D"); (175, "add"); (176, "BatchNormalization"); (176, "add");
   (177, "MaxPooling2D"); (177, "add"); (178, "Conv2D"); (178, "add");
   (179, "BatchNormalization"); (179, "add"); (180, "MaxPooling2D");
   (180, "add"); (181, "Flatten"); (181, "add"); (182, "Dense");
   (182, "add"); (183, "Dense"); (183, "add");
   (185, "compile"); (186, "fit");
   (222, "evaluate"); (227, "print"); (228, "print")]%nat.

(** ** What the library returns along the run *)

Definition x_train_raw : Array := fw_load_data.1.1.
Definition y_train_raw : Array := fw_load_data.1.2.
Definition x_test_raw : Array := fw_load_data.2.1.
Definition y_test_raw : Array := fw_load_data.2.2.

Definition x_train_norm : Array := fw_normalize x_train_raw 1.
Definition x_test_norm : Array := fw_normalize x_test_raw 1.

Definition dense_layers : list Layer :=
  [Flatten (Some (28, 28, 1)); Dense 16 "relu"; Dense 16 "relu";
   Dense 10 "softmax"].

Definition SimpleNet_layers : list Layer :=
  [Conv2D 32 (3, 3) "relu" (Some (28, 28, 1)); BatchNormalization;
   MaxPooling2D (2, 2); Conv2D 64 (3, 3) "relu" None; BatchNormalization;
   MaxPooling2D (2, 2); Flatten None; Dense 64 "relu"; Dense 10 "softmax"].

Definition compiled (ls : list Layer) : Model :=
  fw_compile (foldl fw_add fw_Sequential ls)
    "adam" "sparse_categorical_crossentropy" ["accuracy"].

Definition dense_trained : Model :=
  fw_fit (compiled dense_layers) x_train_norm y_train_raw 3 None.

Definition SimpleNet_trained : Model :=
  fw_fit (compiled SimpleNet_layers) x_train_norm y_train_raw 10 (Some 64).

Definition test_metrics : Scalar * Scalar :=
  fw_evaluate dense_trained x_test_norm y_test_raw.

(** The calls of adding layers, one statement per line from line [ln]:
    for every layer its constructor, then [add]. *)
Definition add_calls (ln : nat) (id : nat) (ls : list Layer) : list event :=
  concat (imap (λ i l, [Event (ln + i) (CLayer l);
                        Event (ln + i) (CAdd id l)]) ls).

Definition compile_call (ln id : nat) : event :=
  Event ln (CCompile id "adam" "sparse_categorical_crossentropy" ["accuracy"]).

(** The calls of a run from the top, in the order they are made. *)
Definition run_trace : list event :=
  [Event 37 CLoadData;
   Event 40 (CNormalize x_train_raw 1);
   Event 41 (CNormalize x_test_raw 1)]
  ++ Event 91 (CSequential 0) :: add_calls 92 0 dense_layers
  ++ [compile_call 98 0;
      Event 99 (CFit 0 x_train_norm y_train_raw 3 None)]
  ++ Event 173 (CSequential 1) :: add_calls 175 1 SimpleNet_layers
  ++ [compile_call 185 1;
      Event 186 (CFit 1 x_train_norm y_train_raw 10 (Some 64))]
  ++ [Event 222 (CEvaluate 0 x_test_norm y_test_raw);
      Event 227 (CPrint [VStr "Loss: "; VFloat test_metrics.1]);
      Event 228 (CPrint [VStr "Accuracy: "; VFloat test_metrics.2])].

(** The kernel after a run from the top. *)
Definition final (d : gmap string Model) : kernel :=
  {| globals :=
       list_to_map
         [("tf", VModule "tensorflow");
          ("mnist", VModule "tensorflow.keras.datasets.mnist");
          ("x_train", VArray x_train_norm);
          ("y_train", VArray y_train_raw);
          ("x_test", VArray x_test_norm);
          ("y_test", VArray y_test_raw);
          ("model", VRef 0);
          ("SimpleNet_model", VRef 1);
          ("loss", VFloat test_metrics.1);
          ("accuracy", VFloat test_metrics.2)];
     heap := [dense_trained; SimpleNet_trained];
     disk := d;
     stdout := [[VStr "Loss: "; VFloat test_metrics.1];
                [VStr "Accuracy: "; VFloat test_metrics.2]];
     trace := run_trace |}.

End Kernel.

Arguments value : clear implicits.
Arguments call : clear implicits.
Arguments event : clear implicits.
Arguments kernel : clear implicits.

(** ** The free implementation of the interface

    Arrays, models and scalars are the expressions that build them.  A run
    over this implementation shows where every value comes from. *)
Module Symbolic.

Inductive array : Type :=
| mnist_x_train | mnist_y_train | mnist_x_test | mnist_y_test
| normalize (a : array) (axis : Z).

Inductive model : Type :=
| Sequential
| add (m : model) (l : Layer)
| compile (m : model) (optimizer loss : string) (metrics : list string)
| fit (m : model) (x y : array) (epochs : Z) (batch_size : option Z).

Inductive scalar : Type :=
| loss_of (m : model) (x y : array)
| metric_of (m : model) (x y : array).

Definition framework : Framework :=
  {| Array := array; Scalar := scalar; Model := model;
     fw_load_data := ((mnist_x_train, mnist_y_train),
                      (mnist_x_test, mnist_y_test));
     fw_normalize := normalize;
     fw_Sequential := Sequential;
     fw_add := add;
     fw_compile := compile;
     fw_fit := fit;
     fw_evaluate := λ m x y, (loss_of m x y, metric_of m x y) |}.

End Symbolic.

(** Kernels of the run over the free implementation: after the import
    alone, after the first two cells, from there after the SimpleNet cell,
    and after the last cell run with and without the SimpleNet cell. *)
Definition kernel_imported : kernel Symbolic.framework :=
  kernel_of (import_tensorflow_as "tf" (fresh ∅)).

Definition kernel_dense : kernel Symbolic.framework :=
  kernel_of ((cell_load;; cell_dense) (fresh ∅)).

Definition kernel_SimpleNet : kernel Symbolic.framework :=
  kernel_of (cell_SimpleNet kernel_dense).

Definition kernel_compared : kernel Symbolic.framework :=
  kernel_of (cell_compare kernel_dense).

Definition kernel_SimpleNet_compared : kernel Symbolic.framework :=
  kernel_of (cell_compare kernel_SimpleNet).

(** ** The program text

    The code cells as syntax trees, in the node types of Python's [ast]
    module (integer and string literals are both [Constant] nodes).  The
    grammar has the compound statements and the operators of the language;
    the notebook uses none of them. *)
Module Py.

Inductive expr : Type :=
| Name (id : string)
| Attribute (value : expr) (attr : string)
| Call (func : expr) (args : list expr) (keywords : list (string * expr))
| Int (n : Z)
| Str (s : string)
| Tuple (elts : list expr)
| List (elts : list expr)
| BinOp (left : expr) (op : string) (right : expr)
| UnaryOp (op : string) (operand : expr)
| Compare (left : expr) (op : string) (right : expr)
| BoolOp (op : string) (values : list expr)
| Subscript (value : expr) (slice : expr)
| IfExp (test body orelse : expr)
| Lambda (params : list string) (body : expr)
| ListComp (elt : expr) (target : expr) (iter : expr).

Inductive stmt : Type :=
| Import (name asname : string)
| Assign (target : expr) (value : expr)
| AugAssign (target : expr) (op : string) (value : expr)
| Expr (value : expr)
| If (test : expr) (body orelse : list stmt)
| While (test : expr) (body : list stmt)
| For (target iter : expr) (body : list stmt)
| Try (body handlers : list stmt)
| With (context : expr) (body : list stmt)
| FunctionDef (name : string) (params : list string) (body : list stmt)
| ClassDef (name : string) (body : list stmt)
| Return (value : expr).

(** A cell is a list of statements, each with the line of the notebook
    file it is written on. *)
Definition cell : Type := list (nat * stmt).

(** [root.a.b.c] *)
Definition path (root : string) (attrs : list string) : expr :=
  foldl Attribute (Name root) attrs.

(** The kinds of the nodes of an expression: the expression, then the
    expressions in it, depth first.  The names are those of the classes of
    Python's [ast] module; its context, keyword and alias nodes are not
    counted. *)
Fixpoint walk_expr (e : expr) : list string :=
  let walk_all := fix go (es : list expr) : list string :=
    match es with
    | [] => []
    | e :: es => walk_expr e ++ go es
    end in
  match e with
  | Name _ => ["Name"]
  | Attribute v _ => "Attribute" :: walk_expr v
  | Call f args kws =>
      "Call" :: walk_expr f ++ walk_all args
      ++ (fix go (ks : list (string * expr)) : list string :=
            match ks with
            | [] => []
            | (_, e) :: ks => walk_expr e ++ go ks
            end) kws
  | Int _ | Str _ => ["Constant"]
  | Tuple es => "Tuple" :: walk_all es
  | List es => "List" :: walk_all es
  | BinOp l _ r => "BinOp" :: walk_expr l ++ walk_expr r
  | UnaryOp _ e => "UnaryOp" :: walk_expr e
  | Compare l _ r => "Compare" :: walk_expr l ++ walk_expr r
  | BoolOp _ es => "BoolOp" :: walk_all es
  | Subscript v i => "Subscript" :: walk_expr v ++ walk_expr i
  | IfExp c a b => "IfExp" :: walk_expr c ++ walk_expr a ++ walk_expr b
  | Lambda _ b => "Lambda" :: walk_expr b
  | ListComp e t i => "ListComp" :: walk_expr e ++ walk_expr t ++ walk_expr i
  end.

Fixpoint walk (s : stmt) : list string :=
  let walk_all := fix go (ss : list stmt) : list string :=
    match ss with
    | [] => []
    | s :: ss => walk s ++ go ss
    end in
  match s with
  | Import _ _ => ["Import"]
  | Assign t v => "Assign" :: walk_expr t ++ walk_expr v
  | AugAssign t _ v => "AugAssign" :: walk_expr t ++ walk_expr v
  | Expr v => "Expr" :: walk_expr v
  | If c a b => "If" :: walk_expr c ++ walk_all a ++ walk_all b
  | While c a => "While" :: walk_expr c ++ walk_all a
  | For t i a => "For" :: walk_expr t ++ walk_expr i ++ walk_all a
  | Try a b => "Try" :: walk_all a ++ walk_all b
  | With c a => "With" :: walk_expr c ++ walk_all a
  | FunctionDef _ _ a => "FunctionDef" :: walk_all a
  | ClassDef _ a => "ClassDef" :: walk_all a
  | Return v => "Return" :: walk_expr v
  end.

Definition node_types (cells : list cell) : list string :=
  c ← cells; ls ← c; walk ls.2.

(** Node types that branch, repeat or define: compound statements,
    definitions, and the expressions that choose, iterate or abstract. *)
Definition control_flow : list string :=
  ["If"; "While"; "For"; "Try"; "With"; "FunctionDef"; "ClassDef";
   "Return"; "IfExp"; "BoolOp"; "ListComp"; "Lambda"].

(** Node types that define a function or a type. *)
Definition definitions : list string :=
  ["FunctionDef"; "ClassDef"; "Lambda"].

(** Node types that only name, select, build a literal, call or bind. *)
Definition glue : list string :=
  ["Import"; "Assign"; "Expr"; "Name"; "Attribute"; "Call"; "Constant";
   "Tuple"; "List"].

(** The callee of a call as it is written: the last name of the path. *)
Definition callee_name (f : expr) : string :=
  match f with
  | Name x => x
  | Attribute _ a => a
  | _ => "<expression>"
  end.

(** The name at the root of the path a callee is written as. *)
Fixpoint root (f : expr) : string :=
  match f with
  | Name x => x
  | Attribute v _ => root v
  | _ => "<expression>"
  end.

(** The calls of an expression in the order they are made: those of the
    callee, of the arguments, then the call itself.  Each is given with
    the root and the last name of its callee. *)
Fixpoint calls_expr (e : expr) : list (string * string) :=
  let calls_all := fix go (es : list expr) : list (string * string) :=
    match es with
    | [] => []
    | e :: es => calls_expr e ++ go es
    end in
  match e with
  | Name _ | Int _ | Str _ => []
  | Attribute v _ => calls_expr v
  | Call f args kws =>
      calls_expr f ++ calls_all args
      ++ (fix go (ks : list (string * expr)) : list (string * string) :=
            match ks with
            | [] => []
            | (_, e) :: ks => calls_expr e ++ go ks
            end) kws
      ++ [(root f, callee_name f)]
  | Tuple es | List es | BoolOp _ es => calls_all es
  | BinOp l _ r | Compare l _ r | Subscript l r => calls_expr l ++ calls_expr r
  | UnaryOp _ e | Lambda _ e => calls_expr e
  | IfExp c a b | ListComp c a b => calls_expr c ++ calls_expr a ++ calls_expr b
  end.

Fixpoint calls (s : stmt) : list (string * string) :=
  let calls_all := fix go (ss : list stmt) : list (string * string) :=
    match ss with
    | [] => []
    | s :: ss => calls s ++ go ss
    end in
  match s with
  | Import _ _ => []
  | Assign _ v | AugAssign _ _ v | Expr v | Return v => calls_expr v
  | If c a b => calls_expr c ++ calls_all a ++ calls_all b
  | While c a | With c a => calls_expr c ++ calls_all a
  | For _ i a => calls_expr i ++ calls_all a
  | Try a b => calls_all a ++ calls_all b
  | FunctionDef _ _ a | ClassDef _ a => calls_all a
  end.

(** The call expressions of the cells by line and callee name, and the
    names their callees are rooted at. *)
Definition call_sites (cells : list cell) : list (nat * string) :=
  c ← cells; ls ← c; (λ rc, (ls.1, rc.2)) <$> calls ls.2.

Definition callee_roots (cells : list cell) : list string :=
  c ← cells; ls ← c; fst <$> calls ls.2.

End Py.

(** The four code cells.  [tf_ [a; b; c]] is the path [tf.a.b.c]. *)
Definition tf_ : list string → Py.expr := Py.path "tf".

Definition shape_28_28_1 : Py.expr :=
  Py.Tuple [Py.Int 28; Py.Int 28; Py.Int 1].

(** [<model>.add(tf.keras.layers.<L>(<args>, <keywords>))] *)
Definition add_stmt (model L : string) (args : list Py.expr)
    (keywords : list (string * Py.expr)) : Py.stmt :=
  Py.Expr
    (Py.Call (Py.Attribute (Py.Name model) "add")
       [Py.Call (tf_ ["keras"; "layers"; L]) args keywords] []).

Definition compile_stmt (model : string) : Py.stmt :=
  Py.Expr
    (Py.Call (Py.Attribute (Py.Name model) "compile") []
       [("optimizer", Py.Str "adam");
        ("loss", Py.Str "sparse_categorical_crossentropy");
        ("metrics", Py.List [Py.Str "accuracy"])]).

Definition cell_load_src : Py.cell :=
  [ (33, Py.Import "tensorflow" "tf");
    (36, Py.Assign (Py.Name "mnist") (tf_ ["keras"; "datasets"; "mnist"]));
    (37, Py.Assign
           (Py.Tuple [Py.Tuple [Py.Name "x_train"; Py.Name "y_train"];
                      Py.Tuple [Py.Name "x_test"; Py.Name "y_test"]])
           (Py.Call (Py.Attribute (Py.Name "mnist") "load_data") [] []));
    (40, Py.Assign (Py.Name "x_train")
           (Py.Call (tf_ ["keras"; "utils"; "normalize"])
              [Py.Name "x_train"] [("axis", Py.Int 1)]));
    (41, Py.Assign (Py.Name "x_test")
           (Py.Call (tf_ ["keras"; "utils"; "normalize"])
              [Py.Name "x_test"] [("axis", Py.Int 1)])) ]%nat.

Definition cell_dense_src : Py.cell :=
  [ (91, Py.Assign (Py.Name "model")
           (Py.Call (tf_ ["keras"; "models"; "Sequential"]) [] []));
    (92, add_stmt "model" "Flatten" [] [("input_shape", shape_28_28_1)]);
    (93, add_stmt "model" "Dense" [Py.Int 16] [("activation", Py.Str "relu")]);
    (94, add_stmt "model" "Dense" [Py.Int 16] [("activation", Py.Str "relu")]);
    (95, add_stmt "model" "Dense" [Py.Int 10]
           [("activation", Py.Str "softmax")]);
    (98, compile_stmt "model");
    (99, Py.Expr
           (Py.Call (Py.Attribute (Py.Name "model") "fit")
              [Py.Name "x_train"; Py.Name "y_train"]
              [("epochs", Py.Int 3)])) ]%nat.

Definition cell_SimpleNet_src : Py.cell :=
  [ (173, Py.Assign (Py.Name "SimpleNet_model")
            (Py.Call (tf_ ["keras"; "models"; "Sequential"]) [] []));
    (175, add_stmt "SimpleNet_model" "Conv2D"
            [Py.Int 32; Py.Tuple [Py.Int 3; Py.Int 3]]
            [("activation", Py.Str "relu"); ("input_shape", shape_28_28_1)]);
    (176, add_stmt "SimpleNet_model" "BatchNormalization" [] []);
    (177, add_stmt "SimpleNet_model" "MaxPooling2D"
            [Py.Tuple [Py.Int 2; Py.Int 2]] []);
    (178, add_stmt "SimpleNet_model" "Conv2D"
            [Py.Int 64; Py.Tuple [Py.Int 3; Py.Int 3]]
            [("activation", Py.Str "relu")]);
    (179, add_stmt "SimpleNet_model" "BatchNormalization" [] []);
    (180, add_stmt "SimpleNet_model" "MaxPooling2D"
            [Py.Tuple [Py.Int 2; Py.Int 2]] []);
    (181, add_stmt "SimpleNet_model" "Flatten" [] []);
    (182, add_stmt "SimpleNet_model" "Dense" [Py.Int 64]
            [("activation", Py.Str "relu")]);
    (183, add_stmt "SimpleNet_model" "Dense" [Py.Int 10]
            [("activation", Py.Str "softmax")]);
    (185, compile_stmt "SimpleNet_model");
    (186, Py.Expr
            (Py.Call (Py.Attribute (Py.Name "SimpleNet_model") "fit")
               [Py.Name "x_train"; Py.Name "y_train"]
               [("epochs", Py.Int 10); ("batch_size", Py.Int 64)])) ]%nat.

Definition cell_compare_src : Py.cell :=
  [ (222, Py.Assign (Py.Tuple [Py.Name "loss"; Py.Name "accuracy"])
            (Py.Call (Py.Attribute (Py.Name "model") "evaluate")
               [Py.Name "x_test"; Py.Name "y_test"] []));
    (227, Py.Expr (Py.Call (Py.Name "print")
                     [Py.Str "Loss: "; Py.Name "loss"] []));
    (228, Py.Expr (Py.Call (Py.Name "print")
                     [Py.Str "Accuracy: "; Py.Name "accuracy"] [])) ]%nat.

Definition notebook_src : list Py.cell :=
  [cell_load_src; cell_dense_src; cell_SimpleNet_src; cell_compare_src].

(** The cells in the order of their recorded execution counts (99, 104,
    106, 111): the SimpleNet cell was last run before the dense cell. *)
Definition recorded_src : list Py.cell :=
  [cell_load_src; cell_SimpleNet_src; cell_dense_src; cell_compare_src].

(** ** The meaning of the program text

    An evaluator for the part of the language the notebook is written in:
    names, attribute paths, literals, tuples and lists, calls of the
    library functions and methods and of [print], imports, assignments and
    expression statements.  Every other construct is refused. *)
Section Evaluator.
Context {fw : Framework}.

(** What an expression evaluates to.  A list evaluates to the tuple of
    its elements: the notebook passes lists and never changes one. *)
Inductive pyobject : Type :=
| OValue (v : value fw)
| OInt (n : Z)
| OTuple (elts : list pyobject)
| OLayer (l : Layer)
| OMethod (self : nat) (name : string)
| OBuiltin (name : string)
| ONone.

#[global] Instance NB_fmap : FMap NB := λ A B f m, a ← m; mret (f a).

(** The value given for the keyword [x], if any. *)
Definition keyword (x : string) (ks : list (string * pyobject))
  : option pyobject :=
  (λ r, r.2.2) <$> list_find (λ k, k.1 = x) ks.

Definition as_pair (o : pyobject) : option (Z * Z) :=
  match o with
  | OTuple [OInt a; OInt b] => Some (a, b)
  | _ => None
  end.

Definition as_shape (o : pyobject) : option (Z * Z * Z) :=
  match o with
  | OTuple [OInt a; OInt b; OInt c] => Some (a, b, c)
  | _ => None
  end.

Definition as_str (o : pyobject) : option string :=
  match o with
  | OValue (VStr s) => Some s
  | _ => None
  end.

Definition as_int (o : pyobject) : option Z :=
  match o with
  | OInt n => Some n
  | _ => None
  end.

Definition as_value (o : pyobject) : option (value fw) :=
  match o with
  | OValue v => Some v
  | _ => None
  end.

(** An optional keyword: absent, or present with a value [f] accepts. *)
Definition optional {A} (f : pyobject → option A) (o : option pyobject)
  : option (option A) :=
  match o with
  | None => Some None
  | Some o => Some <$> f o
  end.

(** The arguments of a layer constructor. *)
Definition layer_of (cls : string) (args : list pyobject)
    (ks : list (string * pyobject)) : option Layer :=
  if decide (cls = "tensorflow.keras.layers.Flatten") then
    match args with
    | [] => Flatten <$> optional as_shape (keyword "input_shape" ks)
    | _ => None
    end
  else if decide (cls = "tensorflow.keras.layers.Dense") then
    match args with
    | [OInt units] => Dense units <$> (keyword "activation" ks ≫= as_str)
    | _ => None
    end
  else if decide (cls = "tensorflow.keras.layers.Conv2D") then
    match args with
    | [OInt filters; size] =>
        kernel_size ← as_pair size;
        activation ← keyword "activation" ks ≫= as_str;
        Conv2D filters kernel_size activation
          <$> optional as_shape (keyword "input_shape" ks)
    | _ => None
    end
  else if decide (cls = "tensorflow.keras.layers.BatchNormalization") then
    match args with
    | [] => Some BatchNormalization
    | _ => None
    end
  else if decide (cls = "tensorflow.keras.layers.MaxPooling2D") then
    match args with
    | [size] => MaxPooling2D <$> as_pair size
    | _ => None
    end
  else None.


(** A call of the function at the module path [f]. *)
Definition call_function (ln : nat) (f : string) (args : list pyobject)
    (ks : list (string * pyobject)) : NB pyobject :=
  if decide (f = "tensorflow.keras.datasets.mnist.load_data") then
    match args, ks with
    | [], [] =>
        r ← load_data ln;
        mret (OTuple [OTuple [OValue r.1.1; OValue r.1.2];
                      OTuple [OValue r.2.1; OValue r.2.2]])
    | _, _ => bad_call
    end
  else if decide (f = "tensorflow.keras.utils.normalize") then
    match args, keyword "axis" ks with
    | [OValue x], Some (OInt axis) =>
        OValue <$> keras_utils_normalize ln x axis
    | _, _ => bad_call
    end
  else if decide (f = "tensorflow.keras.models.Sequential") then
    match args, ks with
    | [], [] => OValue <$> keras_models_Sequential ln
    | _, _ => bad_call
    end
  else if decide (f = "tensorflow.keras.models.load_model") then
    match args, ks with
    | [OValue (VStr path)], [] => OValue <$> keras_models_load_model ln path
    | _, _ => bad_call
    end
  else
    match layer_of f args ks with
    | Some l => OLayer <$> keras_layers ln l
    | None => bad_call
    end.

(** A call of the method [name] of the object [self]. *)
Definition call_method (ln : nat) (self : nat) (name : string)
    (args : list pyobject) (ks : list (string * pyobject)) : NB pyobject :=
  if decide (name = "add") then
    match args, ks with
    | [OLayer l], [] => model_add ln self l;; mret ONone
    | _, _ => bad_call
    end
  else if decide (name = "compile") then
    match args,
          keyword "optimizer" ks ≫= as_str,
          keyword "loss" ks ≫= as_str,
          keyword "metrics" ks with
    | [], Some optimizer, Some loss, Some (OTuple ms) =>
        match mapM as_str ms with
        | Some metrics =>
            model_compile ln self optimizer loss metrics;; mret ONone
        | None => bad_call
        end
    | _, _, _, _ => bad_call
    end
  else if decide (name = "fit") then
    match args,
          keyword "epochs" ks ≫= as_int,
          optional as_int (keyword "batch_size" ks) with
    | [OValue x; OValue y], Some epochs, Some batch_size =>
        model_fit ln self x y epochs batch_size;; mret ONone
    | _, _, _ => bad_call
    end
  else if decide (name = "evaluate") then
    match args, ks with
    | [OValue x; OValue y], [] =>
        r ← model_evaluate ln self x y;
        mret (OTuple [OValue r.1; OValue r.2])
    | _, _ => bad_call
    end
  else if decide (name = "save") then
    match args, ks with
    | [OValue (VStr path)], [] => model_save ln self path;; mret ONone
    | _, _ => bad_call
    end
  else bad_call.

(** A call: of a function of the library, of a method, of [print]. *)
Definition py_call (ln : nat) (f : pyobject) (args : list pyobject)
    (ks : list (string * pyobject)) : NB pyobject :=
  match f with
  | OValue (VModule path) => call_function ln path args ks
  | OMethod self name => call_method ln self name args ks
  | OBuiltin _ =>
      match mapM as_value args, ks with
      | Some vs, [] => print ln None vs;; mret ONone
      | _, _ => bad_call
      end
  | _ => bad_call
  end.

(** The attributes of the modules of the library that the evaluator
    knows; what they stand for is given by its path. *)
Definition library : list (string * string) :=
  [("tensorflow", "keras");
   ("tensorflow.keras", "datasets");
   ("tensorflow.keras.datasets", "mnist");
   ("tensorflow.keras.datasets.mnist", "load_data");
   ("tensorflow.keras", "utils");
   ("tensorflow.keras.utils", "normalize");
   ("tensorflow.keras", "models");
   ("tensorflow.keras.models", "Sequential");
   ("tensorflow.keras.models", "load_model");
   ("tensorflow.keras", "layers");
   ("tensorflow.keras.layers", "Flatten");
   ("tensorflow.keras.layers", "Dense");
   ("tensorflow.keras.layers", "Conv2D");
   ("tensorflow.keras.layers", "BatchNormalization");
   ("tensorflow.keras.layers", "MaxPooling2D")].

(** The methods of a [Sequential] that the evaluator knows. *)
Definition methods : list string :=
  ["add"; "compile"; "fit"; "evaluate"; "save"].

(** [<path>.<attr>] for a module. *)
Definition module_attr (path attr : string) : option string :=
  if decide ((path, attr) ∈ library) then Some (path +:+ "." +:+ attr)
  else None.

(** [<o>.<attr>] *)
Definition py_getattr (o : pyobject) (attr : string) : NB pyobject :=
  match o with
  | OValue (VModule path) =>
      match module_attr path attr with
      | Some p => mret (OValue (VModule p))
      | None => raise (AttributeError attr)
      end
  | OValue v =>
      if decide (attr ∈ methods) then
        self ← method v attr; mret (OMethod self attr)
      else raise (AttributeError attr)
  | _ => raise (AttributeError attr)
  end.

(** A name: a global, or the builtin [print]. *)
Definition py_name (x : string) : NB pyobject := λ k,
  match globals k !! x with
  | Some v => inr (OValue v, k)
  | None =>
      if decide (x = "print") then inr (OBuiltin x, k)
      else inl (NameError x)
  end.

Fixpoint py_eval (ln : nat) (e : Py.expr) {struct e} : NB pyobject :=
  let eval_all := fix go (es : list Py.expr) : NB (list pyobject) :=
    match es with
    | [] => mret []
    | e :: es => o ← py_eval ln e; os ← go es; mret (o :: os)
    end in
  match e with
  | Py.Name x => py_name x
  | Py.Attribute v attr => o ← py_eval ln v; py_getattr o attr
  | Py.Call f args kws =>
      fo ← py_eval ln f;
      os ← eval_all args;
      ks ← (fix go (ks : list (string * Py.expr))
              : NB (list (string * pyobject)) :=
              match ks with
              | [] => mret []
              | (x, e) :: ks =>
                  o ← py_eval ln e; os ← go ks; mret ((x, o) :: os)
              end) kws;
      py_call ln fo os ks
  | Py.Int n => mret (OInt n)
  | Py.Str s => mret (OValue (VStr s))
  | Py.Tuple es | Py.List es => OTuple <$> eval_all es
  | _ => raise (NotImplementedError "expression")
  end.

(** An assignment to a name or to a tuple of targets. *)
Fixpoint py_assign (t : Py.expr) (o : pyobject) {struct t} : NB unit :=
  match t with
  | Py.Name x =>
      match o with
      | OValue v => store_name x v
      | _ => raise (NotImplementedError "value")
      end
  | Py.Tuple ts | Py.List ts =>
      match o with
      | OTuple os =>
          (fix go (ts : list Py.expr) (os : list pyobject) : NB unit :=
             match ts, os with
             | [], [] => mret ()
             | t :: ts, o :: os => py_assign t o;; go ts os
             | _, _ => raise (ValueError "unpack")
             end) ts os
      | _ => raise (TypeError "unpack")
      end
  | _ => raise (NotImplementedError "target")
  end.

Definition py_exec (ln : nat) (s : Py.stmt) : NB unit :=
  match s with
  | Py.Import name asname => store_name asname (VModule name)
  | Py.Assign t v => o ← py_eval ln v; py_assign t o
  | Py.Expr v => py_eval ln v;; mret ()
  | _ => raise (NotImplementedError "statement")
  end.

Fixpoint py_cell (c : Py.cell) : NB unit :=
  match c with
  | [] => mret ()
  | (ln, s) :: c => py_exec ln s;; py_cell c
  end.

Fixpoint py_run (cells : list Py.cell) : NB unit :=
  match cells with
  | [] => mret ()
  | c :: cells => py_cell c;; py_run cells
  end.

End Evaluator.

(** * The run from the top *)

Section Run.
Context {fw : Framework}.
Implicit Types d : gmap string Model.

(** Whatever the library returns, a run from the top ends without an
    exception in the kernel [final d]. *)
Lemma run_all_final d : run_all d = inr ((), final d).
Proof. vm_compute. reflexivity. Qed.

Lemma run_all_trace d : trace_of (run_all d) = run_trace.
Proof. by rewrite run_all_final. Qed.

End Run.

(** * Runs on concrete data *)

(** Over the free implementation the printed loss is the expression that
    computes it. *)
Example symbolic_run_prints :
  after (run_all (fw:=Symbolic.framework) ∅) (λ k,
    stdout k !! 0%nat =
    Some [VStr "Loss: ";
          VFloat (fw:=Symbolic.framework)
            (Symbolic.loss_of
               (Symbolic.fit
                  (Symbolic.compile
                     (foldl Symbolic.add Symbolic.Sequential dense_layers)
                     "adam" "sparse_categorical_crossentropy" ["accuracy"])
                  (Symbolic.normalize Symbolic.mnist_x_train 1)
                  Symbolic.mnist_y_train 3 None)
               (Symbolic.normalize Symbolic.mnist_x_test 1)
               Symbolic.mnist_y_test)]).
Proof. vm_compute. reflexivity. Qed.

(** A cell run before the cells it needs raises [NameError]. *)
Example compare_cell_first :
  cell_compare (fresh (fw:=Symbolic.framework) ∅) = inl (NameError "model").
Proof. reflexivity. Qed.

Example dense_cell_first :
  cell_dense (fresh (fw:=Symbolic.framework) ∅) = inl (NameError "tf").
Proof. reflexivity. Qed.

Example dense_cell_after_import :
  (import_tensorflow_as "tf";; cell_dense) (fresh (fw:=Symbolic.framework) ∅)
  = inl (NameError "x_train").
Proof. vm_compute. reflexivity. Qed.

(** The alternative of line 225 loads a model from disk and evaluates the
    loaded object, or fails when the file is not there. *)
Example saved_model_variant :
  after ((cell_load;; cell_dense;; cell_SimpleNet;; cell_compare_saved)
           (fresh (fw:=Symbolic.framework)
              {["models/SimpleNet.model" := Symbolic.Sequential]}))
    (λ k, calls_in Persistence (trace k) = 1%nat ∧
          (λ e, e.1) <$> evaluations (trace k) = [2%nat]).
Proof. vm_compute. split; reflexivity. Qed.

Example saved_model_variant_without_file :
  (cell_load;; cell_dense;; cell_SimpleNet;; cell_compare_saved)
    (fresh (fw:=Symbolic.framework) ∅)
  = inl (OSError "models/SimpleNet.model").
Proof. vm_compute. reflexivity. Qed.

(** Saving changes the disk. *)
Example save_changes_disk :
  after ((cell_load;; cell_dense;;
          m ← load_name "model"; self ← method m "save";
          model_save 100 self "dense.model")
           (fresh (fw:=Symbolic.framework) ∅))
    (λ k, ¬ disk_untouched (fresh ∅) k).
Proof. vm_compute. intros [H _]. discriminate H. Qed.

(** The dependency check rejects a trace in which the calls of the run
    come in the opposite order. *)
Example reversed_trace_breaks_dependencies :
  dependencies_met (reverse (run_trace (fw:=Symbolic.framework))) = false.
Proof. vm_compute. reflexivity. Qed.

(** * Frame lemmas *)

Section Frame.
Context {fw : Framework}.
Implicit Types (k : kernel fw) (v : value fw).

Lemma calls_in_snoc s (tr : list (event fw)) ln c :
  calls_in s (tr ++ [Event ln c]) =
  (calls_in s tr + if decide (step_of c = s) then 1 else 0)%nat.
Proof.
  unfold calls_in, steps. rewrite fmap_app, filter_app, length_app.
  f_equal. simpl. rewrite filter_cons, filter_nil.
  simpl. destruct (decide (step_of c = s)); reflexivity.
Qed.

#[global] Instance disk_untouched_refl : Reflexive (@disk_untouched fw).
Proof. by intros k. Qed.

#[global] Instance disk_untouched_trans : Transitive (@disk_untouched fw).
Proof. intros k1 k2 k3 [H1 H2] [H3 H4]. split; congruence. Qed.

#[global] Instance labels_kept_refl : Reflexive (@labels_kept fw).
Proof. by intros k. Qed.

#[global] Instance labels_kept_trans : Transitive (@labels_kept fw).
Proof. intros k1 k2 k3 [H1 H2] [H3 H4]. split; congruence. Qed.

Section Generic.
Context (R : kernel fw → kernel fw → Prop) `{!Reflexive R, !Transitive R}.

Lemma guarantees_ret {A} (a : A) : guarantees R (mret a).
Proof. intros k. simpl. reflexivity. Qed.

Lemma guarantees_raise {A} e : guarantees R (raise (A:=A) e).
Proof. intros k. exact I. Qed.

Lemma guarantees_bind {A B} (m : NB A) (f : A → NB B) :
  guarantees R m → (∀ a, guarantees R (f a)) → guarantees R (m ≫= f).
Proof.
  intros Hm Hf k. unfold mbind, NB_bind. specialize (Hm k).
  destruct (m k) as [e|[a k1]]; [exact I|].
  specialize (Hf a k1). destruct (f a k1) as [e|[b k2]]; [exact I|].
  by transitivity k1.
Qed.

Lemma guarantees_load_name x : guarantees R (load_name x).
Proof. intros k. unfold load_name. by destruct (globals k !! x). Qed.

Lemma guarantees_method v name : guarantees R (method v name).
Proof.
  intros k. destruct v; try exact I.
  unfold method. by destruct (heap k !! id).
Qed.

Lemma guarantees_current id : guarantees R (current id).
Proof. intros k. unfold current. by destruct (heap k !! id). Qed.

Lemma guarantees_load_print : guarantees R load_print.
Proof. intros k. simpl. reflexivity. Qed.

Lemma guarantees_print ln p args :
  guarantees R (emit ln (CPrint args);; write_stdout args) →
  guarantees R (print ln p args).
Proof. intros H. destruct p; [by intros k|exact H]. Qed.

Lemma guarantees_read_disk path : guarantees R (read_disk path).
Proof. intros k. unfold read_disk. by destruct (disk k !! path). Qed.

Lemma guarantees_as_array v : guarantees R (as_array v).
Proof. intros k. destruct v; try exact I. simpl. reflexivity. Qed.

Lemma guarantees_is_module name attr v :
  guarantees R (is_module name attr v).
Proof.
  intros k. destruct v; try exact I.
  unfold is_module. case_decide; [simpl; reflexivity|exact I].
Qed.

End Generic.

Lemma disk_untouched_store_name x v :
  guarantees disk_untouched (store_name x v).
Proof. by intros k. Qed.

Lemma disk_untouched_emit ln c :
  step_of c ≠ Persistence → guarantees disk_untouched (emit ln c).
Proof.
  intros Hc k. split; [reflexivity|]. simpl.
  rewrite calls_in_snoc. case_decide; [done|lia].
Qed.

Lemma disk_untouched_alloc m : guarantees disk_untouched (alloc m).
Proof. by intros k. Qed.

Lemma disk_untouched_update id m : guarantees disk_untouched (update id m).
Proof. by intros k. Qed.

Lemma disk_untouched_write_stdout args :
  guarantees disk_untouched (write_stdout args).
Proof. by intros k. Qed.

Lemma labels_kept_store_name x v :
  x ≠ "y_train" → x ≠ "y_test" → guarantees labels_kept (store_name x v).
Proof.
  intros H1 H2 k. split; simpl; by rewrite lookup_insert_ne.
Qed.

Lemma labels_kept_emit ln c : guarantees labels_kept (emit ln c).
Proof. by intros k. Qed.

Lemma labels_kept_alloc m : guarantees labels_kept (alloc m).
Proof. by intros k. Qed.

Lemma labels_kept_update id m : guarantees labels_kept (update id m).
Proof. by intros k. Qed.

Lemma labels_kept_write_stdout args :
  guarantees labels_kept (write_stdout args).
Proof. by intros k. Qed.

End Frame.

Create HintDb frame discriminated.

#[export] Hint Resolve
  guarantees_ret guarantees_raise guarantees_load_name guarantees_method
  guarantees_current guarantees_load_print
  guarantees_read_disk guarantees_as_array guarantees_is_module
  disk_untouched_store_name disk_untouched_alloc disk_untouched_update
  disk_untouched_write_stdout labels_kept_emit labels_kept_alloc
  labels_kept_update labels_kept_write_stdout
  disk_untouched_refl labels_kept_refl : frame.

#[export] Hint Extern 1 (guarantees disk_untouched (emit _ _)) =>
  apply disk_untouched_emit; discriminate : frame.

#[export] Hint Extern 1 (guarantees labels_kept (store_name _ _)) =>
  apply labels_kept_store_name; discriminate : frame.

(** Cut a cell at every bind and close the pieces from the hints. *)
Ltac frame :=
  unfold import_tensorflow_as, keras_datasets_mnist, load_data,
    keras_utils_normalize, keras_models_Sequential, keras_layers, model_add,
    model_compile, model_fit, model_evaluate;
  repeat
    (lazymatch goal with
     | |- guarantees _ (print _ _ _) =>
         apply guarantees_print
     | |- guarantees _ (@mbind _ _ _ _ _ _) =>
         apply guarantees_bind; [ typeclasses eauto | | intros ? ]
     | |- guarantees _ (let '(_, _) := ?p in _) => destruct p
     | |- guarantees _ (let _ := _ in _) => cbv zeta
     end);
  eauto with frame.

(** * The text and the cell programs

    In every kernel state the evaluator gives the text of a cell the
    result of the cell program, exception for exception. *)

Section Link.
Context {fw : Framework}.
Implicit Types (k : kernel fw).

Lemma bind_ext {A B} (m m' : NB A) (f f' : A → NB B) :
  (∀ k, m k = m' k) → (∀ a k, f a k = f' a k) →
  ∀ k, (m ≫= f) k = (m' ≫= f') k.
Proof.
  intros Hm Hf k. unfold mbind, NB_bind. rewrite Hm.
  destruct (m' k) as [e|[a k']]; [reflexivity|apply Hf].
Qed.

Lemma bind_ret_unit (m : NB unit) k : (m;; mret ()) k = m k.
Proof.
  unfold mbind, NB_bind. by destruct (m k) as [e|[[] k']].
Qed.

Lemma module_attr_keras p :
  module_attr p "keras" =
  if decide (p = "tensorflow") then Some "tensorflow.keras" else None.
Proof.
  unfold module_attr. destruct (decide (p = "tensorflow")) as [->|Hp].
  - reflexivity.
  - rewrite decide_False; [reflexivity|].
    unfold library. rewrite !elem_of_cons, elem_of_nil. intros H.
    repeat (destruct H as [H|H]; [by simplify_eq|]). done.
Qed.

Lemma module_attr_load_data p :
  module_attr p "load_data" =
  if decide (p = "tensorflow.keras.datasets.mnist")
  then Some "tensorflow.keras.datasets.mnist.load_data" else None.
Proof.
  unfold module_attr.
  destruct (decide (p = "tensorflow.keras.datasets.mnist")) as [->|Hp].
  - reflexivity.
  - rewrite decide_False; [reflexivity|].
    unfold library. rewrite !elem_of_cons, elem_of_nil. intros H.
    repeat (destruct H as [H|H]; [by simplify_eq|]). done.
Qed.

Lemma module_attr_method p a : a ∈ methods → module_attr p a = None.
Proof.
  intros Ha. unfold module_attr. rewrite decide_False; [reflexivity|].
  revert Ha. unfold methods, library.
  rewrite !elem_of_cons, !elem_of_nil. intros Ha H.
  repeat (destruct Ha as [->|Ha];
          [repeat (destruct H as [H|H]; [by simplify_eq|]); done|]).
  done.
Qed.

End Link.

(** One statement at a time: both sides are unfolded, then the lookups
    they are stuck on are taken by cases. *)
Ltac link_unfold :=
  cbv beta iota zeta delta
    [py_cell py_exec py_eval py_assign py_call call_function call_method
     py_getattr py_name
     mbind NB_bind mret NB_ret fmap NB_fmap
     load_name store_name method current is_module as_array
     load_print print bad_call raise emit alloc update write_stdout
     keras_utils_normalize keras_models_Sequential keras_layers
     model_add model_compile model_fit model_evaluate
     load_data import_tensorflow_as keras_datasets_mnist
     globals heap disk stdout trace
     add_stmt compile_stmt tf_ shape_28_28_1 Py.path foldl fst snd].

Ltac link_step :=
  match goal with
  | |- context [match ?t with _ => _ end] =>
      first
        [ lazymatch t with
          | @lookup _ _ _ _ _ ?g => is_var g; destruct t as [?v|] eqn:?
          end
        | is_var t; destruct t
        | lazymatch t with
          | decide (?n = _) => is_var n; destruct t as [->|?]
          | module_attr ?p "keras" => rewrite (module_attr_keras p)
          | module_attr ?p "load_data" => rewrite (module_attr_load_data p)
          | module_attr ?p ?a =>
              is_var p;
              rewrite (module_attr_method p a)
                by (apply (bool_decide_unpack _); vm_compute; reflexivity)
          | layer_of ?f _ _ => is_var f; unfold layer_of
          end
        | lazymatch t with
          | decide _ => idtac
          | module_attr _ _ => idtac
          | layer_of _ _ _ => idtac
          | keyword _ _ => idtac
          | option_bind _ _ _ _ => idtac
          | optional _ _ => idtac
          | mapM _ _ => idtac
          end;
          let r := eval vm_compute in t in
          change t with r ]
  end.

Ltac link :=
  intros [g hp dk out tr]; link_unfold;
  repeat (link_step; cbv beta iota);
  reflexivity.

Ltac link_cell :=
  cbn [py_cell];
  repeat (apply bind_ext; [link | intros ?; cbv beta]);
  let k := fresh "k" in
  intros k; rewrite bind_ret_unit; revert k; link.

Section Cells.
Context {fw : Framework}.
Implicit Types (k : kernel fw).

Lemma py_cell_load k : py_cell cell_load_src k = cell_load k.
Proof. revert k. unfold cell_load_src, cell_load. link_cell. Qed.

Lemma py_cell_dense k : py_cell cell_dense_src k = cell_dense k.
Proof. revert k. unfold cell_dense_src, cell_dense. link_cell. Qed.

Lemma py_cell_SimpleNet k : py_cell cell_SimpleNet_src k = cell_SimpleNet k.
Proof. revert k. unfold cell_SimpleNet_src, cell_SimpleNet. link_cell. Qed.

Lemma py_cell_compare k : py_cell cell_compare_src k = cell_compare k.
Proof. revert k. unfold cell_compare_src, cell_compare. link_cell. Qed.

Lemma py_run_notebook k : py_run notebook_src k = notebook k.
Proof.
  revert k. unfold notebook_src, notebook. cbn [py_run].
  apply bind_ext; [apply py_cell_load|intros ?; cbv beta].
  apply bind_ext; [apply py_cell_dense|intros ?; cbv beta].
  apply bind_ext; [apply py_cell_SimpleNet|intros ?; cbv beta].
  intros k. rewrite bind_ret_unit. apply py_cell_compare.
Qed.

Lemma py_run_recorded k : py_run recorded_src k = recorded k.
Proof.
  revert k. unfold recorded_src, recorded. cbn [py_run].
  apply bind_ext; [apply py_cell_load|intros ?; cbv beta].
  apply bind_ext; [apply py_cell_SimpleNet|intros ?; cbv beta].
  apply bind_ext; [apply py_cell_dense|intros ?; cbv beta].
  intros k. rewrite bind_ret_unit. apply py_cell_compare.
Qed.

Lemma call_sites_of_text : Py.call_sites notebook_src = call_sites.
Proof. reflexivity. Qed.

End Cells.

(** * Properties of a run from the top *)

(** ** The models and their evaluation *)

(** C1, as stated, fails: over the free implementation the run ends with
    no evaluation of the object [SimpleNet_model] refers to, so it is not
    the case that both models have their test accuracy computed. *)
Lemma SimpleNet_model_not_evaluated :
  ¬ after (run_all (fw:=Symbolic.framework) ∅) both_models_evaluated.
Proof.
  rewrite run_all_final. unfold after, both_models_evaluated.
  intros [_ H]. vm_compute in H. discriminate H.
Qed.

(** C1, amended: the run trains two models, the fully-connected [model]
    and the convolutional [SimpleNet_model]: at the end each name refers to
    an object of its own whose state is what [fit] returned for the
    compiled stack of its layers on the normalized training images and the
    training labels.  The evaluation step computes the test loss and
    accuracy of [model] only: there is a single [evaluate] call, on the
    object [model] refers to with the normalized test images and the test
    labels, what is printed is the result of that call on the trained
    dense model, and [SimpleNet_model] is never evaluated. *)
Theorem two_models_trained_dense_evaluated {fw : Framework} d :
  after (run_all d) (λ k,
    layers_of k "model" = dense_layers ∧
    layers_of k "SimpleNet_model" = SimpleNet_layers ∧
    is_fully_connected (layers_of k "model") = true ∧
    is_convolutional (layers_of k "SimpleNet_model") = true ∧
    trains k "model" = true ∧
    trains k "SimpleNet_model" = true ∧
    model_state k "model" =
      Some (fw_fit (compiled dense_layers) x_train_norm y_train_raw 3 None) ∧
    model_state k "SimpleNet_model" =
      Some (fw_fit (compiled SimpleNet_layers) x_train_norm y_train_raw
              10 (Some 64)) ∧
    heap k = [dense_trained; SimpleNet_trained] ∧
    evaluates k "model" = true ∧
    evaluates k "SimpleNet_model" = false ∧
    object_of "model" k = Some 0%nat ∧
    object_of "SimpleNet_model" k = Some 1%nat ∧
    evaluations (trace k) = [(0%nat, (x_test_norm, y_test_raw))] ∧
    stdout k = printed (fw_evaluate dense_trained x_test_norm y_test_raw)).
Proof.
  rewrite run_all_final. unfold after.
  repeat split; vm_compute; reflexivity.
Qed.

(** C10: there are exactly two [fit] calls.  The first trains the dense
    model for 3 epochs and passes no batch size, the second trains
    SimpleNet for 10 epochs with batch size 64; both receive the normalized
    training images and the training labels.  The two objects end in the
    states these calls return: the state of the dense model is the result
    of [fit] with 3 epochs and no batch size on its compiled layers, the
    state of SimpleNet the result of [fit] with 10 epochs and batch size 64
    on its compiled layers. *)
Theorem two_training_regimes {fw : Framework} d :
  after (run_all d) (λ k,
    object_of "model" k = Some 0%nat ∧
    object_of "SimpleNet_model" k = Some 1%nat ∧
    layers_added 0 (trace k) = dense_layers ∧
    layers_added 1 (trace k) = SimpleNet_layers ∧
    fits (trace k) =
      [(0%nat, (x_train_norm, y_train_raw), (3, None));
       (1%nat, (x_train_norm, y_train_raw), (10, Some 64))] ∧
    globals k !! "x_train" = Some (VArray x_train_norm) ∧
    globals k !! "y_train" = Some (VArray y_train_raw) ∧
    heap k =
      [fw_fit (compiled dense_layers) x_train_norm y_train_raw 3 None;
       fw_fit (compiled SimpleNet_layers) x_train_norm y_train_raw
         10 (Some 64)]).
Proof.
  rewrite run_all_final. unfold after.
  repeat split; vm_compute; reflexivity.
Qed.

(** ** The data the models see *)

(** C3: the run starts with [load_data] and the two [normalize] calls, on
    the loaded training and test images; every [fit] and [evaluate] call
    comes after them, [fit] receives the normalized training images and
    [evaluate] the normalized test images, and [x_train] and [x_test] are
    bound to the normalized arrays. *)
Theorem images_normalized_before_use {fw : Framework} d :
  after (run_all d) (λ k, ∃ rest,
    trace k = [Event 37 CLoadData;
               Event 40 (CNormalize x_train_raw 1);
               Event 41 (CNormalize x_test_raw 1)] ++ rest ∧
    normalizations rest = [] ∧
    (λ f, f.1.2.1) <$> fits rest = [x_train_norm; x_train_norm] ∧
    (λ e, e.2.1) <$> evaluations rest = [x_test_norm] ∧
    globals k !! "x_train" = Some (VArray x_train_norm) ∧
    globals k !! "x_test" = Some (VArray x_test_norm)).
Proof.
  rewrite run_all_final. unfold after, final, trace, run_trace.
  eexists. split; [reflexivity|].
  repeat split; vm_compute; reflexivity.
Qed.

(** C9: the cells after the first never rebind [y_train] or [y_test],
    from whatever kernel state they are run.  In a run from the top the
    labels every [fit] call receives are the training labels as
    [load_data] returned them, the labels [evaluate] receives are the test
    labels as [load_data] returned them, [y_train] and [y_test] are still
    bound to these arrays at the end, and the only [normalize] calls are
    the two on the images. *)
Theorem labels_untouched {fw : Framework} d :
  guarantees labels_kept (cell_dense;; cell_SimpleNet;; cell_compare) ∧
  after (run_all d) (λ k,
    (λ f, f.1.2.2) <$> fits (trace k) =
      [fw_load_data.1.2; fw_load_data.1.2] ∧
    (λ e, e.2.2) <$> evaluations (trace k) = [fw_load_data.2.2] ∧
    globals k !! "y_train" = Some (VArray fw_load_data.1.2) ∧
    globals k !! "y_test" = Some (VArray fw_load_data.2.2) ∧
    normalizations (trace k) =
      [(fw_load_data.1.1, 1); (fw_load_data.2.1, 1)]).
Proof.
  split.
  - unfold cell_dense, cell_SimpleNet, cell_compare. frame.
  - rewrite run_all_final. unfold after.
    repeat split; vm_compute; reflexivity.
Qed.

(** ** Output and persistence *)

(** C7: there is one [evaluate] call, on the object [model] refers to with
    the test data; what the two [print] calls write are the first and the
    second component of the pair that call returns, unchanged, after the
    strings ["Loss: "] and ["Accuracy: "]. *)
Theorem printed_metrics_are_evaluate_result {fw : Framework} d :
  after (run_all d) (λ k, ∃ m,
    object_of "model" k = Some 0%nat ∧
    heap k !! 0%nat = Some m ∧
    evaluations (trace k) = [(0%nat, (x_test_norm, y_test_raw))] ∧
    stdout k =
      [[VStr "Loss: "; VFloat (fw_evaluate m x_test_norm y_test_raw).1];
       [VStr "Accuracy: "; VFloat (fw_evaluate m x_test_norm y_test_raw).2]]).
Proof.
  rewrite run_all_final. unfold after. exists dense_trained.
  repeat split; vm_compute; reflexivity.
Qed.

(** C8: from whatever kernel state the notebook is run, if it ends
    without an exception it has made no [save] and no [load_model] call and
    the disk is as it was; a run from the top does end, with no such call in
    its trace and with the disk it started with. *)
Theorem no_persistence {fw : Framework} d :
  guarantees disk_untouched notebook ∧
  after (run_all d) (λ k,
    disk k = d ∧ calls_in Persistence (trace k) = 0%nat).
Proof.
  assert (Hframe : guarantees disk_untouched notebook).
  { unfold notebook, cell_load, cell_dense, cell_SimpleNet, cell_compare.
    frame. }
  split; [exact Hframe|].
  specialize (Hframe (fresh d)). fold (run_all d) in Hframe.
  rewrite run_all_final in *. exact Hframe.
Qed.

(** ** Order and number of the calls *)

(** C2, as stated, fails: the run does not go through the six steps once
    each in the listed order, since the dense model is trained before
    SimpleNet is defined. *)
Lemma steps_not_in_listed_order :
  ¬ after (run_all (fw:=Symbolic.framework) ∅) steps_in_listed_order.
Proof.
  rewrite run_all_final. unfold after, steps_in_listed_order.
  vm_compute. discriminate.
Qed.

(** C2, amended: the calls of a run are those of [run_trace], in that
    order: dataset acquisition, normalization, definition of the dense
    model, its training, definition of SimpleNet, its training, evaluation,
    printing; no exception is raised and no call comes before a call whose
    result it consumes. *)
Theorem steps_per_model_in_order {fw : Framework} d :
  after (run_all d) (λ k,
    trace k = run_trace ∧
    phases (steps (trace k)) =
      [Acquisition; Normalization; ModelDefinition; Training;
       ModelDefinition; Training; Evaluation; Printing] ∧
    dependencies_met (trace k) = true).
Proof.
  rewrite run_all_final. unfold after.
  repeat split; vm_compute; reflexivity.
Qed.

(** C4, as stated, fails: model definition alone takes more than one
    call. *)
Lemma steps_not_single_calls :
  ¬ after (run_all (fw:=Symbolic.framework) ∅) one_call_per_step.
Proof.
  rewrite run_all_final. unfold after, one_call_per_step, six_steps.
  intros H. do 2 apply Forall_cons_1, proj2 in H.
  apply Forall_cons_1, proj1 in H. vm_compute in H. discriminate H.
Qed.

(** C4, amended: every step consists of library calls only, and only
    dataset acquisition and evaluation are one call.  Normalization is two
    [normalize] calls, on the training images and on the test images; model
    definition is, for each of the two models, one constructor call
    followed by one layer constructor and one [add] per layer (28 calls in
    all); training is one [compile] and one [fit] per model (four calls);
    printing is two [print] calls.  The 38 calls of the run are the 38 call
    expressions of the code cells, each executed exactly once. *)
Theorem calls_per_step {fw : Framework} d :
  after (run_all d) (λ k,
    calls_of Acquisition (trace k) = [Event 37 CLoadData] ∧
    calls_of Normalization (trace k) =
      [Event 40 (CNormalize x_train_raw 1);
       Event 41 (CNormalize x_test_raw 1)] ∧
    calls_of ModelDefinition (trace k) =
      Event 91 (CSequential 0) :: add_calls 92 0 dense_layers
      ++ Event 173 (CSequential 1) :: add_calls 175 1 SimpleNet_layers ∧
    calls_of Training (trace k) =
      [compile_call 98 0;
       Event 99 (CFit 0 x_train_norm y_train_raw 3 None);
       compile_call 185 1;
       Event 186 (CFit 1 x_train_norm y_train_raw 10 (Some 64))] ∧
    calls_of Evaluation (trace k) =
      [Event 222 (CEvaluate 0 x_test_norm y_test_raw)] ∧
    calls_of Printing (trace k) =
      [Event 227 (CPrint [VStr "Loss: "; VFloat test_metrics.1]);
       Event 228 (CPrint [VStr "Accuracy: "; VFloat test_metrics.2])] ∧
    calls_of Persistence (trace k) = [] ∧
    (λ s, calls_in s (trace k)) <$> six_steps = [1; 2; 28; 4; 1; 2]%nat ∧
    length (trace k) = 38%nat ∧
    site <$> trace k = Py.call_sites notebook_src ∧
    NoDup (site <$> trace k)).
Proof.
  rewrite run_all_final. unfold after.
  repeat split; try (vm_compute; reflexivity).
  apply (bool_decide_unpack _). vm_compute. reflexivity.
Qed.

(** ** The shape of the program *)

(** C5: the text of the code cells has no loop, no conditional, no
    function or class definition and no other construct that branches,
    repeats or abstracts: it is a sequence of imports, assignments and
    expression statements, and in every kernel state the cell programs
    compute what the evaluator computes from this text.  Whatever the
    library returns and whatever the disk holds, a run ends without an
    exception and executes the call expressions of the text in the order
    they are written, each exactly once. *)
Theorem straight_line {fw : Framework} d :
  (∀ t, t ∈ Py.node_types notebook_src → t ∉ Py.control_flow) ∧
  (∀ c ln s, c ∈ notebook_src → (ln, s) ∈ c →
     (∃ name asname, s = Py.Import name asname) ∨
     (∃ target value, s = Py.Assign target value) ∨
     (∃ value, s = Py.Expr value)) ∧
  (∀ k, py_run notebook_src k = notebook k) ∧
  succeeds (run_all d) = true ∧
  site <$> trace_of (run_all d) = Py.call_sites notebook_src ∧
  Py.call_sites notebook_src = call_sites ∧
  NoDup (Py.call_sites notebook_src).
Proof.
  split; [|split; [|split; [|split; [|split; [|split]]]]].
  - apply Forall_forall. apply (bool_decide_unpack _). vm_compute. reflexivity.
  - intros c ln s Hc Hs.
    assert (H : Forall (λ c : Py.cell, Forall (λ ls,
              match ls.2 with
              | Py.Import _ _ | Py.Assign _ _ | Py.Expr _ => True
              | _ => False
              end) c) notebook_src).
    { unfold notebook_src, cell_load_src, cell_dense_src, cell_SimpleNet_src,
        cell_compare_src, add_stmt, compile_stmt.
      repeat (apply Forall_cons; split); try apply Forall_nil; exact I. }
    rewrite Forall_forall in H. specialize (H c Hc).
    rewrite Forall_forall in H. specialize (H _ Hs). simpl in H.
    destruct s; try contradiction; eauto.
  - apply py_run_notebook.
  - by rewrite run_all_final.
  - rewrite run_all_final. vm_compute. reflexivity.
  - apply call_sites_of_text.
  - apply (bool_decide_unpack _). vm_compute. reflexivity.
Qed.

(** C6: the text of the code cells defines no function and no class, and
    consists of nothing but names, attribute paths, literals, calls and
    bindings: there is no operator, no subscript and no comprehension in
    it, so no value is computed by the notebook itself; in every kernel
    state the cell programs compute what the evaluator computes from this
    text.  Every call is written on one of the names [tf], [mnist],
    [model], [SimpleNet_model] and [print]; in a run from the top these
    names are bound to the library, to one of its modules and to two of
    its [Sequential] objects, and [print] is the builtin.  The kernel the
    run ends in is [final]: every array, model state and number in it is
    the result of the calls of the library that [run_trace] lists. *)
Theorem notebook_delegates_all_computation {fw : Framework} d :
  (∀ t, t ∈ Py.node_types notebook_src → t ∈ Py.glue) ∧
  (∀ t, t ∈ Py.node_types notebook_src → t ∉ Py.definitions) ∧
  (∀ r, r ∈ Py.callee_roots notebook_src →
     r ∈ ["tf"; "mnist"; "model"; "SimpleNet_model"; "print"]) ∧
  (∀ k, py_run notebook_src k = notebook k) ∧
  after (run_all d) (λ k,
    globals k !! "tf" = Some (VModule "tensorflow") ∧
    globals k !! "mnist" = Some (VModule "tensorflow.keras.datasets.mnist") ∧
    globals k !! "model" = Some (VRef 0) ∧
    globals k !! "SimpleNet_model" = Some (VRef 1) ∧
    globals k !! "print" = None ∧
    heap k =
      [fw_fit (compiled dense_layers) x_train_norm y_train_raw 3 None;
       fw_fit (compiled SimpleNet_layers) x_train_norm y_train_raw
         10 (Some 64)] ∧
    stdout k = printed (fw_evaluate dense_trained x_test_norm y_test_raw) ∧
    trace k = run_trace ∧
    k = final d).
Proof.
  split; [|split; [|split; [|split]]].
  - apply Forall_forall. apply (bool_decide_unpack _). vm_compute. reflexivity.
  - apply Forall_forall. apply (bool_decide_unpack _). vm_compute. reflexivity.
  - apply Forall_forall. apply (bool_decide_unpack _). vm_compute. reflexivity.
  - apply py_run_notebook.
  - rewrite run_all_final. unfold after.
    repeat split; vm_compute; reflexivity.
Qed.

(** * The cells from any kernel state *)

Section Wp.
Context {fw : Framework}.
Implicit Types (k : kernel fw) (v : value fw) (E : error → Prop).

Lemma lookup_snoc {A} (l : list A) (x : A) : (l ++ [x]) !! length l = Some x.
Proof. by apply list_lookup_middle. Qed.

Lemma lookup_snoc2 {A} (l : list A) (x y : A) :
  ((l ++ [x]) ++ [y]) !! length l = Some x.
Proof. apply lookup_app_l_Some, lookup_snoc. Qed.

Lemma insert_snoc {A} (l : list A) (x y : A) :
  <[length l:=y]> (l ++ [x]) = l ++ [y].
Proof. induction l as [|a l IH]; simpl; [reflexivity|]. by rewrite IH. Qed.

Lemma wp_after {A} (m : NB A) (P : kernel fw → Prop) k :
  wp m (λ _, P) (λ _, False) k → after (m k) P.
Proof. unfold wp, after. by destruct (m k) as [e|[a k']]. Qed.

Lemma wp_raises {A} (m : NB A) (e : error) k :
  wp m (λ _ _, False) (λ e', e' = e) k → m k = inl e.
Proof.
  unfold wp. destruct (m k) as [e'|[a k']]; [congruence|contradiction].
Qed.

Lemma wp_guarantees {A} (m : NB A) (R : kernel fw → kernel fw → Prop) :
  (∀ k, wp m (λ _, R k) (λ _, True) k) → guarantees R m.
Proof. intros H k. specialize (H k). unfold wp in H. by destruct (m k) as [e|[a k']]. Qed.

Lemma guarantees_inv {A} (m : NB A) (R : kernel fw → kernel fw → Prop)
    k a k' :
  guarantees R m → m k = inr (a, k') → R k k'.
Proof. intros H Hk. specialize (H k). by rewrite Hk in H. Qed.

Lemma wp_ret {A} (a : A) (Q : A → kernel fw → Prop) E k :
  Q a k → wp (mret a) Q E k.
Proof. done. Qed.

Lemma wp_bind {A B} (m : NB A) (f : A → NB B)
    (Q : B → kernel fw → Prop) E k :
  wp m (λ a, wp (f a) Q E) E k → wp (m ≫= f) Q E k.
Proof.
  unfold wp, mbind, NB_bind. by destruct (m k) as [e|[a k']].
Qed.

(** The rules for the operations on the kernel, on a kernel given by its
    five components. *)
Lemma wp_load_name x v (Q : value fw → kernel fw → Prop) E g hp dk out tr :
  g !! x = Some v →
  Q v (Kernel g hp dk out tr) →
  wp (load_name x) Q E (Kernel g hp dk out tr).
Proof. intros H HQ. unfold wp, load_name. simpl. by rewrite H. Qed.

Lemma wp_load_name_unbound x (Q : value fw → kernel fw → Prop) E
    g hp dk out tr :
  g !! x = None →
  E (NameError x) →
  wp (load_name x) Q E (Kernel g hp dk out tr).
Proof. intros H HE. unfold wp, load_name. simpl. by rewrite H. Qed.

Lemma wp_load_print p (Q : option (value fw) → kernel fw → Prop) E
    g hp dk out tr :
  g !! "print" = p →
  Q p (Kernel g hp dk out tr) →
  wp load_print Q E (Kernel g hp dk out tr).
Proof. intros H HQ. unfold wp, load_print. simpl. by rewrite H. Qed.

Lemma wp_method id s name (Q : nat → kernel fw → Prop) E g hp dk out tr :
  hp !! id = Some s →
  Q id (Kernel g hp dk out tr) →
  wp (method (VRef id) name) Q E (Kernel g hp dk out tr).
Proof. intros H HQ. unfold wp, method. simpl. by rewrite H. Qed.

Lemma wp_method_dangling id name (Q : nat → kernel fw → Prop) E
    g hp dk out tr :
  hp !! id = None →
  E (TypeError "dangling reference") →
  wp (method (VRef id) name) Q E (Kernel g hp dk out tr).
Proof. intros H HQ. unfold wp, method. simpl. by rewrite H. Qed.

Lemma wp_current id s (Q : Model → kernel fw → Prop) E g hp dk out tr :
  hp !! id = Some s →
  Q s (Kernel g hp dk out tr) →
  wp (current id) Q E (Kernel g hp dk out tr).
Proof. intros H HQ. unfold wp, current. simpl. by rewrite H. Qed.

Lemma wp_is_module name attr (Q : () → kernel fw → Prop) E k :
  Q () k → wp (is_module name attr (VModule name)) Q E k.
Proof. intros HQ. unfold wp, is_module. by rewrite decide_True. Qed.

Lemma wp_is_module_case name attr n (Q : () → kernel fw → Prop) E k :
  (n = name → Q () k) →
  E (AttributeError attr) →
  wp (is_module name attr (VModule n)) Q E k.
Proof.
  intros HQ HE. unfold wp, is_module.
  destruct (decide (n = name)); simpl; auto.
Qed.

Lemma wp_print_builtin ln args (Q : () → kernel fw → Prop) E k :
  wp (emit ln (CPrint args);; write_stdout args) Q E k →
  wp (print ln None args) Q E k.
Proof. done. Qed.

Lemma wp_print_shadowed ln v args (Q : () → kernel fw → Prop) E k :
  E (TypeError "call") →
  wp (print ln (Some v) args) Q E k.
Proof. done. Qed.

Lemma wp_store_name x v (Q : () → kernel fw → Prop) E g hp dk out tr :
  Q () (Kernel (<[x:=v]> g) hp dk out tr) →
  wp (store_name x v) Q E (Kernel g hp dk out tr).
Proof. done. Qed.

Lemma wp_emit ln c (Q : () → kernel fw → Prop) E g hp dk out tr :
  Q () (Kernel g hp dk out (tr ++ [Event ln c])) →
  wp (emit ln c) Q E (Kernel g hp dk out tr).
Proof. done. Qed.

Lemma wp_alloc m (Q : nat → kernel fw → Prop) E g hp dk out tr :
  Q (length hp) (Kernel g (hp ++ [m]) dk out tr) →
  wp (alloc m) Q E (Kernel g hp dk out tr).
Proof. done. Qed.

(** The object created last is updated. *)
Lemma wp_update_last m m' (Q : () → kernel fw → Prop) E g hp dk out tr :
  Q () (Kernel g (hp ++ [m']) dk out tr) →
  wp (update (length hp) m') Q E (Kernel g (hp ++ [m]) dk out tr).
Proof. unfold wp, update. simpl. by rewrite insert_snoc. Qed.

Lemma wp_write_stdout args (Q : () → kernel fw → Prop) E g hp dk out tr :
  Q () (Kernel g hp dk (out ++ [args]) tr) →
  wp (write_stdout args) Q E (Kernel g hp dk out tr).
Proof. done. Qed.

(** Two namespaces built by assignments are equal when they agree on
    every name. *)
Lemma loaded_globals_eq (g : gmap string (value fw)) :
  <["x_test":=VArray (fw_normalize fw_load_data.2.1 1)]>
    (<["x_train":=VArray (fw_normalize fw_load_data.1.1 1)]>
       (<["y_test":=VArray fw_load_data.2.2]>
          (<["x_test":=VArray fw_load_data.2.1]>
             (<["y_train":=VArray fw_load_data.1.2]>
                (<["x_train":=VArray fw_load_data.1.1]>
                   (<["mnist":=VModule "tensorflow.keras.datasets.mnist"]>
                      (<["tf":=VModule "tensorflow"]> g)))))))
  = loaded_globals g.
Proof.
  unfold loaded_globals. apply map_eq. intros x.
  rewrite !lookup_insert. repeat case_decide; congruence.
Qed.

End Wp.

(** One statement of a cell at a time.  A name whose binding is not known
    is looked up by cases; so is the kind of a value that is not known.
    The cases that raise are closed where every exception is accepted. *)
Ltac wp_lookup :=
  repeat (rewrite lookup_insert_ne by done);
  first [ eassumption | apply lookup_insert_eq ].

Ltac wp_heap :=
  first [ eassumption | apply lookup_snoc | apply lookup_snoc2
        | apply lookup_app_l_Some; first [ eassumption | apply lookup_snoc ] ].

(** The lookup of [x] in the namespace [g] is under the assignments to
    other names. *)
Ltac wp_base g x :=
  lazymatch g with
  | <[_:=_]> ?g' => wp_base g' x
  | _ => constr:(g !! x)
  end.

Ltac wp_step :=
  lazymatch goal with
  | |- wp (@mbind _ _ _ _ _ _) _ _ _ => apply wp_bind
  | |- wp (mret _) _ _ _ => apply wp_ret
  | |- wp (load_name ?x) _ _ (Kernel ?g _ _ _ _) =>
      first [ eapply wp_load_name; [wp_lookup|]
            | apply wp_load_name_unbound; [wp_lookup|try exact I]
            | let t := wp_base g x in
              let H := fresh "Hg" in
              destruct t as [?v|] eqn:H;
              [ eapply wp_load_name; [wp_lookup|]
              | apply wp_load_name_unbound; [wp_lookup|try exact I] ] ]
  | |- wp load_print _ _ (Kernel ?g _ _ _ _) =>
      first [ eapply wp_load_print;
              [repeat (rewrite lookup_insert_ne by done); eassumption|]
            | let t := wp_base g "print" in
              let H := fresh "Hg" in
              destruct t as [?v|] eqn:H;
              (eapply wp_load_print;
               [repeat (rewrite lookup_insert_ne by done); exact H|]) ]
  | |- wp (method (VRef ?id) _) _ _ (Kernel _ ?hp _ _ _) =>
      first [ eapply wp_method; [wp_heap|]
            | let H := fresh "Hh" in
              destruct (hp !! id) as [?m|] eqn:H;
              [ eapply wp_method; [exact H|]
              | apply wp_method_dangling; [exact H|try exact I] ] ]
  | |- wp (method ?v _) _ _ _ => destruct v; try exact I
  | |- wp (current _) _ _ _ => eapply wp_current; [wp_heap|]
  | |- wp (is_module ?name _ (VModule ?n)) _ _ _ =>
      first [ apply wp_is_module
            | apply wp_is_module_case; [intros ->|try exact I] ]
  | |- wp (is_module _ _ ?v) _ _ _ => destruct v; try exact I
  | |- wp (as_array (VArray _)) _ _ _ => apply wp_ret
  | |- wp (as_array ?v) _ _ _ => destruct v; try exact I
  | |- wp (print _ None _) _ _ _ => apply wp_print_builtin
  | |- wp (print _ (Some _) _) _ _ _ => apply wp_print_shadowed; try exact I
  | |- wp (store_name _ _) _ _ _ => apply wp_store_name
  | |- wp (emit _ _) _ _ _ => apply wp_emit
  | |- wp (alloc _) _ _ _ => apply wp_alloc
  | |- wp (update _ _) _ _ _ => apply wp_update_last
  | |- wp (write_stdout _) _ _ _ => apply wp_write_stdout
  | |- wp (match ?p with (_, _) => _ end) _ _ _ => cbv beta iota zeta
  | |- wp (let _ := _ in _) _ _ _ => cbv zeta
  | |- wp (import_tensorflow_as _) _ _ _ => unfold import_tensorflow_as at 1
  | |- wp (keras_datasets_mnist _) _ _ _ => unfold keras_datasets_mnist at 1
  | |- wp (load_data _) _ _ _ => unfold load_data at 1
  | |- wp (keras_utils_normalize _ _ _) _ _ _ =>
      unfold keras_utils_normalize at 1
  | |- wp (keras_models_Sequential _) _ _ _ =>
      unfold keras_models_Sequential at 1
  | |- wp (keras_layers _ _) _ _ _ => unfold keras_layers at 1
  | |- wp (model_add _ _ _) _ _ _ => unfold model_add at 1
  | |- wp (model_compile _ _ _ _ _) _ _ _ => unfold model_compile at 1
  | |- wp (model_fit _ _ _ _ _ _) _ _ _ => unfold model_fit at 1
  | |- wp (model_evaluate _ _ _ _) _ _ _ => unfold model_evaluate at 1
  | |- wp (cell_load) _ _ _ => unfold cell_load at 1
  | |- wp (cell_dense) _ _ _ => unfold cell_dense at 1
  | |- wp (cell_SimpleNet) _ _ _ => unfold cell_SimpleNet at 1
  | |- wp (cell_compare) _ _ _ => unfold cell_compare at 1
  | |- wp (notebook) _ _ _ => unfold notebook at 1
  end;
  cbv beta.

(** Run a computation on a kernel given by its components. *)
Ltac wp_run := repeat wp_step.

Ltac wp_start k :=
  destruct k as [?g ?hp ?dk ?out ?tr];
  cbn [globals heap disk stdout trace] in *.

(** Run the computation under [after], with the property kept folded. *)
Ltac wp_exec :=
  lazymatch goal with
  | |- after _ ?P =>
      let post := fresh "post" in
      set (post := P); apply wp_after; wp_run; subst post; cbv beta
  end.

(** Run the computation from any kernel, whatever it raises. *)
Ltac wp_from_any_state :=
  lazymatch goal with
  | |- guarantees ?R _ =>
      let post := fresh "post" in
      let k := fresh "k" in
      set (post := R); apply wp_guarantees; intros k; wp_start k;
      wp_run; subst post; cbv beta; cbn [globals heap disk stdout trace]
  end.

Section CellSpecs.
Context {fw : Framework}.
Implicit Types (k : kernel fw).

(** X2: if the dense cell ends without an exception, [x_train] and
    [y_train] were bound to arrays and the cell has created one new object,
    bound [model] to it, built it from an empty [Sequential] with the four
    layers, compiled it and fitted it once for 3 epochs on these arrays;
    the objects that existed are as they were, so running the cell again
    starts a new model and does not train the old one further. *)
Theorem cell_dense_starts_new_model :
  guarantees (λ k k', ∃ x y : Array,
    globals k !! "x_train" = Some (VArray x) ∧
    globals k !! "y_train" = Some (VArray y) ∧
    globals k' !! "model" = Some (VRef (length (heap k))) ∧
    heap k' = heap k ++ [fw_fit (compiled dense_layers) x y 3 None] ∧
    trace k' = trace k ++
      Event 91 (CSequential (length (heap k)))
      :: add_calls 92 (length (heap k)) dense_layers
      ++ [compile_call 98 (length (heap k));
          Event 99 (CFit (length (heap k)) x y 3 None)])
    cell_dense.
Proof.
  wp_from_any_state.
  eexists _, _. rewrite <- !app_assoc.
  repeat split; first [eassumption | by simplify_map_eq].
Qed.

(** X3: the same for the SimpleNet cell: if it ends without an exception
    it has created one new object, bound [SimpleNet_model] to it, built it
    from an empty [Sequential] with the nine layers, compiled it and fitted
    it once for 10 epochs with batch size 64 on the arrays [x_train] and
    [y_train] were bound to; the objects that existed are as they were. *)
Theorem cell_SimpleNet_starts_new_model :
  guarantees (λ k k', ∃ x y : Array,
    globals k !! "x_train" = Some (VArray x) ∧
    globals k !! "y_train" = Some (VArray y) ∧
    globals k' !! "SimpleNet_model" = Some (VRef (length (heap k))) ∧
    heap k' =
      heap k ++ [fw_fit (compiled SimpleNet_layers) x y 10 (Some 64)] ∧
    trace k' = trace k ++
      Event 173 (CSequential (length (heap k)))
      :: add_calls 175 (length (heap k)) SimpleNet_layers
      ++ [compile_call 185 (length (heap k));
          Event 186 (CFit (length (heap k)) x y 10 (Some 64))])
    cell_SimpleNet.
Proof.
  wp_from_any_state.
  eexists _, _. rewrite <- !app_assoc.
  repeat split; first [eassumption | by simplify_map_eq].
Qed.

Lemma cell_compare_effect : guarantees evaluation_of cell_compare.
Proof.
  wp_from_any_state.
  unfold evaluation_of. cbn [globals heap disk stdout trace].
  eexists _, _, _, _. rewrite <- !app_assoc.
  repeat split; first [eassumption | by simplify_map_eq].
Qed.

Lemma cell_SimpleNet_frame :
  guarantees evaluation_inputs_kept cell_SimpleNet.
Proof.
  wp_from_any_state.
  unfold evaluation_inputs_kept. cbn [globals heap disk stdout trace].
  repeat split; try by simplify_map_eq.
  intros id m Hid. by apply lookup_app_l_Some.
Qed.

End CellSpecs.

(** ** The last cell *)

Section Evaluation.
Context {fw : Framework}.
Implicit Types (k : kernel fw).

(** X4: if the last cell ends without an exception, [model] referred to
    an object and [x_test] and [y_test] to arrays; the cell has made one
    [evaluate] call, on that object with these arrays, has bound [loss] and
    [accuracy] to the two numbers the call returned and has printed these
    two numbers after ["Loss: "] and ["Accuracy: "]. *)
Theorem cell_compare_evaluates_model k k' :
  cell_compare k = inr ((), k') →
  ∃ (id : nat) (m : Model) (x y : Array),
    globals k !! "model" = Some (VRef id) ∧
    heap k !! id = Some m ∧
    globals k !! "x_test" = Some (VArray x) ∧
    globals k !! "y_test" = Some (VArray y) ∧
    globals k' !! "loss" = Some (VFloat (fw_evaluate m x y).1) ∧
    globals k' !! "accuracy" = Some (VFloat (fw_evaluate m x y).2) ∧
    stdout k' = stdout k ++ printed (fw_evaluate m x y) ∧
    evaluations (trace k') = evaluations (trace k) ++ [(id, (x, y))].
Proof.
  intros H.
  destruct (guarantees_inv _ _ _ _ _ cell_compare_effect H)
    as (id & m & x & y & Hm & Hh & Hx & Hy & Hl & Ha & Hout & Htr).
  exists id, m, x, y. rewrite Htr. unfold evaluations at 1.
  rewrite omap_app. by repeat split.
Qed.

(** X8: what the last cell computes does not depend on the SimpleNet
    cell.  If the last cell ends without an exception both after the
    SimpleNet cell and without it, it evaluates in both cases the same
    object in the same state on the same arrays, prints the same two lines
    and binds [loss] and [accuracy] to the same numbers. *)
Theorem evaluation_ignores_SimpleNet k k1 k2 k3 :
  cell_SimpleNet k = inr ((), k1) →
  cell_compare k1 = inr ((), k2) →
  cell_compare k = inr ((), k3) →
  ∃ (id : nat) (m : Model) (x y : Array),
    heap k !! id = Some m ∧
    heap k1 !! id = Some m ∧
    evaluations (trace k2) = evaluations (trace k1) ++ [(id, (x, y))] ∧
    evaluations (trace k3) = evaluations (trace k) ++ [(id, (x, y))] ∧
    stdout k2 = stdout k1 ++ printed (fw_evaluate m x y) ∧
    stdout k3 = stdout k ++ printed (fw_evaluate m x y) ∧
    globals k2 !! "loss" = globals k3 !! "loss" ∧
    globals k2 !! "accuracy" = globals k3 !! "accuracy".
Proof.
  intros H1 H2 H3.
  destruct (guarantees_inv _ _ _ _ _ cell_SimpleNet_frame H1)
    as (Fm & Fx & Fy & _ & Fh).
  destruct (guarantees_inv _ _ _ _ _ cell_compare_effect H3)
    as (id & m & x & y & Hm & Hh & Hx & Hy & Hl & Ha & Hout & Htr).
  destruct (guarantees_inv _ _ _ _ _ cell_compare_effect H2)
    as (id' & m' & x' & y' & Hm' & Hh' & Hx' & Hy' & Hl' & Ha' & Hout' & Htr').
  rewrite Fm, Hm in Hm'. rewrite Fx, Hx in Hx'. rewrite Fy, Hy in Hy'.
  simplify_eq. rewrite (Fh _ _ Hh) in Hh'. simplify_eq.
  exists id', m', x', y'. rewrite Htr, Htr'. unfold evaluations.
  rewrite !omap_app. repeat split; auto; congruence.
Qed.

End Evaluation.

(** ** Cells run too early *)

Section CellErrors.
Context {fw : Framework}.
Implicit Types (k : kernel fw).

(** X5: in a kernel with no global name bound (a kernel just started,
    whatever its disk), the two model cells raise [NameError] for [tf] and
    the last cell raises [NameError] for [model]. *)
Theorem cells_in_empty_namespace k :
  globals k = ∅ →
  cell_dense k = inl (NameError "tf") ∧
  cell_SimpleNet k = inl (NameError "tf") ∧
  cell_compare k = inl (NameError "model").
Proof.
  intros Hg. wp_start k. subst.
  pose proof (lookup_empty (M:=gmap string) (A:=value fw) "tf") as Htf.
  pose proof (lookup_empty (M:=gmap string) (A:=value fw) "model") as Hm.
  repeat split; apply wp_raises; wp_run; reflexivity.
Qed.

(** X6: with [tf] bound to the TensorFlow module and [x_train] unbound,
    the two model cells raise [NameError] for [x_train]. *)
Theorem model_cells_need_training_data k :
  globals k !! "tf" = Some (VModule "tensorflow") →
  globals k !! "x_train" = None →
  cell_dense k = inl (NameError "x_train") ∧
  cell_SimpleNet k = inl (NameError "x_train").
Proof.
  intros Htf Hx. wp_start k.
  split; apply wp_raises; wp_run; reflexivity.
Qed.

End CellErrors.

(** ** How the cells compose *)

Section CellOrder.
Context {fw : Framework}.
Implicit Types (k : kernel fw).

(** X9: the notebook run from the top in a kernel that has been used
    before.  If the run ends without an exception it has added two objects
    to those that existed and left these as they were; [model] and
    [SimpleNet_model] refer to the two new objects; the images are the
    loaded images normalized once; the calls made are those of the 38 call
    expressions, in their order; the dense layers went to the first new
    object and the SimpleNet layers to the second; and what was printed are
    the metrics of the first new object on the normalized test images and
    the test labels. *)
Theorem notebook_run_again :
  guarantees (λ k k', ∃ (m1 m2 : Model) tr,
    heap k' = heap k ++ [m1; m2] ∧
    globals k' !! "model" = Some (VRef (length (heap k))) ∧
    globals k' !! "SimpleNet_model" = Some (VRef (S (length (heap k)))) ∧
    globals k' !! "x_train" = Some (VArray x_train_norm) ∧
    globals k' !! "x_test" = Some (VArray x_test_norm) ∧
    trace k' = trace k ++ tr ∧
    site <$> tr = call_sites ∧
    layers_added (length (heap k)) tr = dense_layers ∧
    layers_added (S (length (heap k))) tr = SimpleNet_layers ∧
    evaluations tr = [(length (heap k), (x_test_norm, y_test_raw))] ∧
    stdout k' = stdout k ++ printed (fw_evaluate m1 x_test_norm y_test_raw))
    notebook.
Proof.
  wp_from_any_state.
  eexists _, _, _. rewrite <- !app_assoc.
  split; [reflexivity|].
  split; [by simplify_map_eq|].
  split; [rewrite length_app, Nat.add_comm; by simplify_map_eq|].
  split; [by simplify_map_eq|]. split; [by simplify_map_eq|].
  split; [reflexivity|].
  split; [reflexivity|].
  rewrite length_app, Nat.add_comm. cbn [length Nat.add].
  unfold layers_added, evaluations. cbn [app omap list_omap what].
  repeat first [ rewrite decide_True by done | rewrite decide_False by lia ].
  repeat split.
Qed.

(** X11: re-running the first cell does not normalize the images a second
    time: run twice in a row from any kernel state, it leaves the same
    namespace as run once, with six calls made. *)
Theorem cell_load_twice k :
  after ((cell_load;; cell_load) k) (λ k',
    globals k' = loaded_globals (globals k) ∧
    globals k' !! "x_train" = Some (VArray (fw_normalize fw_load_data.1.1 1)) ∧
    heap k' = heap k ∧
    normalizations (trace k') =
      normalizations (trace k) ++
      [(fw_load_data.1.1, 1); (fw_load_data.2.1, 1);
       (fw_load_data.1.1, 1); (fw_load_data.2.1, 1)]).
Proof.
  wp_start k. wp_exec.
  cbn [globals heap trace]. rewrite !loaded_globals_eq, <- !app_assoc.
  assert (Hidem : loaded_globals (loaded_globals g) = loaded_globals g).
  { unfold loaded_globals. apply map_eq. intros x.
    rewrite !lookup_insert. repeat case_decide; congruence. }
  rewrite Hidem. split; [reflexivity|].
  split; [unfold loaded_globals; by simplify_map_eq|].
  split; [reflexivity|].
  unfold normalizations. by rewrite omap_app.
Qed.

End CellOrder.

(** ** What the later cells leave alone *)

Section ImagesFrame.
Context {fw : Framework}.

#[global] Instance images_kept_refl : Reflexive (@images_kept fw).
Proof. by intros k. Qed.

#[global] Instance images_kept_trans : Transitive (@images_kept fw).
Proof. intros k1 k2 k3 [H1 H2] [H3 H4]. split; congruence. Qed.

Lemma images_kept_store_name x (v : value fw) :
  x ≠ "x_train" → x ≠ "x_test" → guarantees images_kept (store_name x v).
Proof.
  intros H1 H2 k. split; simpl; by rewrite lookup_insert_ne.
Qed.

Lemma images_kept_emit ln (c : call fw) : guarantees images_kept (emit ln c).
Proof. by intros k. Qed.

Lemma images_kept_alloc (m : @Model fw) : guarantees images_kept (alloc m).
Proof. by intros k. Qed.

Lemma images_kept_update id (m : @Model fw) :
  guarantees images_kept (update id m).
Proof. by intros k. Qed.

Lemma images_kept_write_stdout (args : list (value fw)) :
  guarantees images_kept (write_stdout args).
Proof. by intros k. Qed.

End ImagesFrame.

#[export] Hint Resolve images_kept_emit images_kept_alloc images_kept_update
  images_kept_write_stdout images_kept_refl : frame.

#[export] Hint Extern 1 (guarantees images_kept (store_name _ _)) =>
  apply images_kept_store_name; discriminate : frame.

(** X12: the cells after the first never rebind [x_train] or [x_test]:
    from whatever kernel state they are run, if they end without an
    exception the two names are bound to what they were bound to before. *)
Theorem images_never_rebound {fw : Framework} :
  guarantees images_kept (cell_dense;; cell_SimpleNet;; cell_compare).
Proof. unfold cell_dense, cell_SimpleNet, cell_compare. frame. Qed.

(** ** The recorded order of execution *)

Lemma call_sites_swap (a b c d : Py.cell) :
  Py.call_sites [a; c; b; d] ≡ₚ Py.call_sites [a; b; c; d].
Proof.
  unfold Py.call_sites. rewrite !bind_cons.
  f_equiv. rewrite !app_assoc. do 2 f_equiv. apply Permutation_app_comm.
Qed.

(** X10: the execution counts stored in the notebook (99, 104, 106, 111)
    record the order data cell, SimpleNet cell, dense cell, last cell.  A
    run from a fresh kernel in that order makes the calls of the same 38
    call expressions, each once; SimpleNet is then the first object and the
    dense model the second; each model still gets its own layers and its
    own [fit] arguments, and the one [evaluate] call is still on the object
    [model] refers to, the dense model. *)
Theorem recorded_execution_order {fw : Framework} d :
  (∀ k, py_run recorded_src k = recorded k) ∧
  Py.call_sites recorded_src ≡ₚ Py.call_sites notebook_src ∧
  after (recorded (fresh d)) (λ k,
    site <$> trace k = Py.call_sites recorded_src ∧
    object_of "SimpleNet_model" k = Some 0%nat ∧
    object_of "model" k = Some 1%nat ∧
    layers_of k "model" = dense_layers ∧
    layers_of k "SimpleNet_model" = SimpleNet_layers ∧
    fits (trace k) =
      [(0%nat, (x_train_norm, y_train_raw), (10, Some 64));
       (1%nat, (x_train_norm, y_train_raw), (3, None))] ∧
    evaluations (trace k) = [(1%nat, (x_test_norm, y_test_raw))]).
Proof.
  split; [apply py_run_recorded|].
  split; [apply call_sites_swap|].
  vm_compute. repeat split.
Qed.

(** * The statements with hypotheses, on the run over the free
    implementation *)

(** X4 on the kernel after the first two cells. *)
Lemma cell_compare_evaluates_model_witness :
  cell_compare kernel_dense = inr ((), kernel_compared) ∧
  ∃ (id : nat) (m : @Model Symbolic.framework)
    (x y : @Array Symbolic.framework),
    globals kernel_dense !! "model" = Some (VRef id) ∧
    heap kernel_dense !! id = Some m ∧
    globals kernel_dense !! "x_test" = Some (VArray x) ∧
    globals kernel_dense !! "y_test" = Some (VArray y) ∧
    globals kernel_compared !! "loss"
      = Some (VFloat (fw_evaluate (Framework:=Symbolic.framework) m x y).1) ∧
    globals kernel_compared !! "accuracy"
      = Some (VFloat (fw_evaluate (Framework:=Symbolic.framework) m x y).2) ∧
    stdout kernel_compared =
      stdout kernel_dense
      ++ printed (fw_evaluate (Framework:=Symbolic.framework) m x y) ∧
    evaluations (trace kernel_compared) =
      evaluations (trace kernel_dense) ++ [(id, (x, y))].
Proof.
  assert (H : cell_compare kernel_dense = inr ((), kernel_compared))
    by (vm_compute; reflexivity).
  split; [exact H|].
  exact (cell_compare_evaluates_model kernel_dense kernel_compared H).
Defined.

(** X5 on a kernel just started. *)
Lemma cells_in_empty_namespace_witness :
  globals (fresh (fw:=Symbolic.framework) ∅) = ∅ ∧
  cell_dense (fresh (fw:=Symbolic.framework) ∅) = inl (NameError "tf") ∧
  cell_SimpleNet (fresh (fw:=Symbolic.framework) ∅) = inl (NameError "tf") ∧
  cell_compare (fresh (fw:=Symbolic.framework) ∅) = inl (NameError "model").
Proof.
  split; [reflexivity|].
  apply (cells_in_empty_namespace (fresh (fw:=Symbolic.framework) ∅)).
  reflexivity.
Defined.

(** X6 on a kernel in which only the import has run. *)
Lemma model_cells_need_training_data_witness :
  globals kernel_imported !! "tf" = Some (VModule "tensorflow") ∧
  globals kernel_imported !! "x_train" = None ∧
  cell_dense kernel_imported = inl (NameError "x_train") ∧
  cell_SimpleNet kernel_imported = inl (NameError "x_train").
Proof.
  assert (Htf : globals kernel_imported !! "tf" = Some (VModule "tensorflow"))
    by (vm_compute; reflexivity).
  assert (Hx : globals kernel_imported !! "x_train" = None)
    by (vm_compute; reflexivity).
  split; [exact Htf|]. split; [exact Hx|].
  exact (model_cells_need_training_data kernel_imported Htf Hx).
Defined.

(** X8 on the kernel after the first two cells. *)
Lemma evaluation_ignores_SimpleNet_witness :
  cell_SimpleNet kernel_dense = inr ((), kernel_SimpleNet) ∧
  cell_compare kernel_SimpleNet = inr ((), kernel_SimpleNet_compared) ∧
  cell_compare kernel_dense = inr ((), kernel_compared) ∧
  ∃ (id : nat) (m : @Model Symbolic.framework)
    (x y : @Array Symbolic.framework),
    heap kernel_dense !! id = Some m ∧
    heap kernel_SimpleNet !! id = Some m ∧
    evaluations (trace kernel_SimpleNet_compared) =
      evaluations (trace kernel_SimpleNet) ++ [(id, (x, y))] ∧
    evaluations (trace kernel_compared) =
      evaluations (trace kernel_dense) ++ [(id, (x, y))] ∧
    stdout kernel_SimpleNet_compared =
      stdout kernel_SimpleNet
      ++ printed (fw_evaluate (Framework:=Symbolic.framework) m x y) ∧
    stdout kernel_compared =
      stdout kernel_dense
      ++ printed (fw_evaluate (Framework:=Symbolic.framework) m x y) ∧
    globals kernel_SimpleNet_compared !! "loss"
      = globals kernel_compared !! "loss" ∧
    globals kernel_SimpleNet_compared !! "accuracy"
      = globals kernel_compared !! "accuracy".
Proof.
  assert (H1 : cell_SimpleNet kernel_dense = inr ((), kernel_SimpleNet))
    by (vm_compute; reflexivity).
  assert (H2 : cell_compare kernel_SimpleNet
               = inr ((), kernel_SimpleNet_compared))
    by (vm_compute; reflexivity).
  assert (H3 : cell_compare kernel_dense = inr ((), kernel_compared))
    by (vm_compute; reflexivity).
  split; [exact H1|]. split; [exact H2|]. split; [exact H3|].
  exact (evaluation_ignores_SimpleNet _ _ _ _ H1 H2 H3).
Defined.
